(** * cert-checker: the trust decision engine

    A shallow embedding of [cert_checker/checker/remote.py] and
    [cert_checker/checker/validator.py], with the properties of hostname
    matching, expiration classification, signature dispatch, chain
    validation and the per-host check.

    Conventions of the embedding:
    - a Python [str] whose characters all lie below U+0100 is a [string],
      one byte per code point; on such strings [str.lower] keeps the
      length and moves A-Z and the capital letters U+00C0-U+00DE (but not
      the sign U+00D7) 32 places up;
    - a [datetime] in UTC is the number of microseconds since the epoch,
      a [timedelta] a number of microseconds, both in [Z];
    - a computation that may raise is a value of [Py.result]; a computation
      that may also call the signature verifier threads the log of those
      calls ([Py.M]). *)

From Stdlib Require Import String Ascii List ZArith Lia Bool DecimalString.
From Stdlib Require Import Permutation.
Import ListNotations.

Open Scope string_scope.
Open Scope list_scope.

(* ================================================================== *)
(** * Python strings *)
(* ================================================================== *)

Module PyStr.

(** [str.lower] on one character below U+0100: the letters A-Z (65-90)
    and the capital letters U+00C0-U+00DE (192-222) other than the
    multiplication sign U+00D7 (215) move 32 places up; every other
    character stays. *)
Definition lower_char (c : ascii) : ascii :=
  let n := nat_of_ascii c in
  if ((65 <=? n)%nat && (n <=? 90)%nat)
     || ((192 <=? n)%nat && (n <=? 222)%nat && negb (n =? 215)%nat)
  then ascii_of_nat (n + 32) else c.

Fixpoint lower (s : string) : string :=
  match s with
  | EmptyString => EmptyString
  | String c s' => String (lower_char c) (lower s')
  end.

(** [s.startswith(p)] *)
Fixpoint startswith (s p : string) {struct p} : bool :=
  match p with
  | EmptyString => true
  | String a p' =>
      match s with
      | EmptyString => false
      | String b s' => Ascii.eqb a b && startswith s' p'
      end
  end.

(** [s.split(sep)] for a one-character separator: never the empty list,
    [""] splits into [[""]]. *)
Fixpoint split (sep : ascii) (s : string) : list string :=
  match s with
  | EmptyString => [EmptyString]
  | String c s' =>
      if Ascii.eqb c sep then EmptyString :: split sep s'
      else match split sep s' with
           | [] => [String c EmptyString]
           | w :: ws => String c w :: ws
           end
  end.

(** [sep.join(parts)] *)
Fixpoint join (sep : ascii) (parts : list string) : string :=
  match parts with
  | [] => EmptyString
  | [w] => w
  | w :: ws => (w ++ String sep (join sep ws))%string
  end.

(** [sep not in s] *)
Fixpoint free_of (sep : ascii) (s : string) : bool :=
  match s with
  | EmptyString => true
  | String c s' => negb (Ascii.eqb c sep) && free_of sep s'
  end.

(** [str(n)] for a natural number and for an [int]. *)
Definition str_of_nat (n : nat) : string :=
  NilEmpty.string_of_uint (Nat.to_uint n).

Definition str_of_Z (z : Z) : string :=
  NilEmpty.string_of_int (Z.to_int z).

(** Truthiness of a [str]: the empty string is falsy. *)
Definition truthy (s : string) : bool :=
  match s with EmptyString => false | _ => true end.

End PyStr.

(* ================================================================== *)
(** * Python control flow: exceptions and the log of verifier calls *)
(* ================================================================== *)

Module Py.

(** The exception classes the two modules raise or catch.  Each carries
    [str(e)]. *)
Inductive exn : Type :=
| InvalidSignature (msg : string)      (* cryptography.exceptions *)
| UnsupportedAlgorithm (msg : string)  (* cryptography.exceptions *)
| socket_timeout (msg : string)
| socket_gaierror (msg : string)
| socket_error (msg : string)          (* OSError *)
| ssl_SSLError (msg : string)
| Exception (msg : string).            (* any other subclass of Exception *)

Definition str (e : exn) : string :=
  match e with
  | InvalidSignature m | UnsupportedAlgorithm m | socket_timeout m
  | socket_gaierror m | socket_error m | ssl_SSLError m | Exception m => m
  end.

Inductive result (A : Type) : Type :=
| Return (a : A)
| Raise (e : exn).
Arguments Return {A} a.
Arguments Raise {A} e.

Definition rbind {A B} (m : result A) (k : A -> result B) : result B :=
  match m with
  | Return a => k a
  | Raise e => Raise e
  end.

(** [try: m  except Exception as e: h e] *)
Definition rtry {A} (m : result A) (h : exn -> result A) : result A :=
  match m with
  | Return a => Return a
  | Raise e => h e
  end.

(** A computation that also appends to a log of events of type [E]. *)
Definition M (E A : Type) : Type := list E -> result A * list E.

Definition ret {E A} (a : A) : M E A := fun t => (Return a, t).

Definition bind {E A B} (m : M E A) (k : A -> M E B) : M E B :=
  fun t =>
    match m t with
    | (Return a, t') => k a t'
    | (Raise e, t') => (Raise e, t')
    end.

Definition lift {E A} (r : result A) : M E A := fun t => (r, t).

Definition log {E} (ev : E) : M E unit := fun t => (Return tt, t ++ [ev]).

Definition try_except {E A} (m : M E A) (h : exn -> M E A) : M E A :=
  fun t =>
    match m t with
    | (Return a, t') => (Return a, t')
    | (Raise e, t') => h e t'
    end.

(** [a or b] on an optional integer: [None] and [0] are falsy. *)
Definition or_int (a : option Z) (b : Z) : Z :=
  match a with
  | Some z => if Z.eqb z 0 then b else z
  | None => b
  end.

(** [a or b] on an optional string: [None] and [""] are falsy. *)
Definition or_str (a : option string) (b : string) : string :=
  match a with
  | Some s => if PyStr.truthy s then s else b
  | None => b
  end.

End Py.

Declare Scope py_scope.
Delimit Scope py_scope with py.
Notation "x <- m ;; k" := (Py.bind m (fun x => k))
  (at level 61, m at next level, right associativity) : py_scope.
Notation "x <~ m ;; k" := (Py.rbind m (fun x => k))
  (at level 61, m at next level, right associativity) : py_scope.

(* ================================================================== *)
(** * The certificate model ([cryptography.x509]) *)
(* ================================================================== *)

Module X509.

Definition bytes : Type := string.

(** One attribute of a distinguished name. *)
Record NameAttribute : Type := {
  oid : string;
  value : string
}.

(** [x509.Name]: compared with [==] attribute by attribute. *)
Definition Name : Type := list NameAttribute.

Definition COMMON_NAME : string := "commonName".

Definition attr_eqb (a b : NameAttribute) : bool :=
  String.eqb (oid a) (oid b) && String.eqb (value a) (value b).

Fixpoint Name_eqb (n m : Name) : bool :=
  match n, m with
  | [], [] => true
  | a :: n', b :: m' => attr_eqb a b && Name_eqb n' m'
  | _, _ => false
  end.

Definition get_attributes_for_oid (n : Name) (o : string) : list NameAttribute :=
  filter (fun a => String.eqb (oid a) o) n.

Inductive HashAlgorithm : Type := MD5 | SHA1 | SHA224 | SHA256 | SHA384 | SHA512.

(** The public key classes [verify_signature] tells apart by
    [isinstance]; [OtherPublicKey] stands for every other class
    (Ed25519, Ed448, X25519, ...). *)
Inductive PublicKey : Type :=
| RSAPublicKey (key : bytes)
| EllipticCurvePublicKey (key : bytes)
| DSAPublicKey (key : bytes)
| OtherPublicKey (key : bytes).

Record BasicConstraints : Type := {
  ca : bool;
  path_length : option nat
}.

Record KeyUsage : Type := {
  digital_signature : bool;
  key_encipherment : bool;
  key_cert_sign : bool;
  crl_sign : bool
}.

Inductive GeneralName : Type :=
| DNSName (v : string)
| IPAddress (v : string)
| OtherGeneralName (v : string).

(** [x509.Certificate].  An extension that is absent is [None]
    ([get_extension_for_oid] raises [ExtensionNotFound]); [public_key()]
    and [signature_hash_algorithm] may raise. *)
Record Certificate : Type := {
  subject : Name;
  issuer : Name;
  not_valid_before_utc : Z;
  not_valid_after_utc : Z;
  public_key : Py.result PublicKey;
  signature : bytes;
  tbs_certificate_bytes : bytes;
  signature_algorithm_oid_name : string;
  signature_hash_algorithm : Py.result (option HashAlgorithm);
  basic_constraints : option BasicConstraints;
  key_usage : option KeyUsage;
  subject_alternative_name : option (list GeneralName)
}.

(** [padding.PKCS1v15()] and its siblings. *)
Inductive Padding : Type := PKCS1v15 | PSS | OAEP.

(** [ec.ECDSA(hash)] *)
Inductive ECSignatureAlgorithm : Type :=
| ECDSA (h : option HashAlgorithm).

(** The [verify] methods of the three key classes: [Return tt] when the
    signature verifies, [Raise] otherwise ([InvalidSignature], or
    whatever else the backend raises). *)
Class CryptoBackend : Type := {
  rsa_verify : bytes -> bytes -> bytes -> Padding -> option HashAlgorithm -> Py.result unit;
  ec_verify : bytes -> bytes -> bytes -> ECSignatureAlgorithm -> Py.result unit;
  dsa_verify : bytes -> bytes -> bytes -> option HashAlgorithm -> Py.result unit
}.

End X509.

(* ================================================================== *)
(** * [cert_checker/utils/cert_parser.py] *)
(* ================================================================== *)

Module CertificateParser.
Import X509.

Definition get_subject_cn (cert : Certificate) : option string :=
  match get_attributes_for_oid (subject cert) COMMON_NAME with
  | a :: _ => Some (value a)
  | [] => None
  end.

Definition get_values_for_type_DNSName (names : list GeneralName) : list string :=
  flat_map (fun g => match g with DNSName v => [v] | _ => [] end) names.

Definition get_san (cert : Certificate) : list string :=
  match subject_alternative_name cert with
  | Some san_ext => get_values_for_type_DNSName san_ext
  | None => []
  end.

Definition get_validity_period (cert : Certificate) : Z * Z :=
  (not_valid_before_utc cert, not_valid_after_utc cert).

Definition get_issuer_cn (cert : Certificate) : option string :=
  match get_attributes_for_oid (issuer cert) COMMON_NAME with
  | a :: _ => Some (value a)
  | [] => None
  end.

Definition is_self_signed (cert : Certificate) : bool :=
  Name_eqb (subject cert) (issuer cert).

Definition is_ca (cert : Certificate) : bool :=
  match basic_constraints cert with
  | Some bc => ca bc
  | None => false
  end.

Definition get_key_usage (cert : Certificate) : list string :=
  match key_usage cert with
  | Some ku =>
      let usages := [] in
      let usages := if digital_signature ku then usages ++ ["digital_signature"] else usages in
      let usages := if key_encipherment ku then usages ++ ["key_encipherment"] else usages in
      let usages := if key_cert_sign ku then usages ++ ["key_cert_sign"] else usages in
      let usages := if crl_sign ku then usages ++ ["crl_sign"] else usages in
      usages
  | None => []
  end.

End CertificateParser.

(* ================================================================== *)
(** * [cert_checker/config.py] *)
(* ================================================================== *)

Module Config.
Import PyStr.

(** A [ValueError] is an exception that no handler of the embedded code
    tells apart from other exceptions; it carries its message. *)
Definition ValueError (msg : string) : Py.exn := Py.Exception msg.

Module HostConfig.
Record t : Type := make {
  name : string;
  fqdn : string;
  port : Z;
  enabled : bool;
  warning_days : Z;
  client_cert : bool
}.
End HostConfig.

Module SettingsConfig.
Record t : Type := make {
  timeout : Z;
  verify_chain : bool;
  show_warnings : bool;
  default_port : Z
}.
End SettingsConfig.

Record t : Type := make {
  settings : SettingsConfig.t;
  hosts : list HostConfig.t
}.

(** [[a-zA-Z0-9]] *)
Definition alnum (c : ascii) : bool :=
  let n := nat_of_ascii c in
  ((97 <=? n)%nat && (n <=? 122)%nat)
  || ((65 <=? n)%nat && (n <=? 90)%nat)
  || ((48 <=? n)%nat && (n <=? 57)%nat).

(** [[a-zA-Z0-9-]] *)
Definition alnum_or_hyphen (c : ascii) : bool :=
  alnum c || Ascii.eqb c "-".

(** [[a-zA-Z0-9-]*[a-zA-Z0-9]] against the whole of [s]. *)
Fixpoint label_rest (s : string) : bool :=
  match s with
  | EmptyString => false
  | String c EmptyString => alnum c
  | String c s' => alnum_or_hyphen c && label_rest s'
  end.

(** [[a-zA-Z0-9]([a-zA-Z0-9-]*[a-zA-Z0-9])?] against the whole of [s]. *)
Definition label_pattern (s : string) : bool :=
  match s with
  | EmptyString => false
  | String c EmptyString => alnum c
  | String c s' => alnum c && label_rest s'
  end.

(** [s] without its last character when that is a line feed. *)
Fixpoint before_final_newline (s : string) : option string :=
  match s with
  | EmptyString => None
  | String c EmptyString => if Ascii.eqb c "010" then Some EmptyString else None
  | String c s' =>
      match before_final_newline s' with
      | Some r => Some (String c r)
      | None => None
      end
  end.

(** [re.match(r"^[a-zA-Z0-9]([a-zA-Z0-9-]*[a-zA-Z0-9])?$", part)]: the
    [$] of [re] matches at the end of the string and also just before a
    line feed that ends it. *)
Definition label_match (part : string) : bool :=
  label_pattern part
  || match before_final_newline part with
     | Some core => label_pattern core
     | None => false
     end.

(** The loop over the parts in [validate_fqdn]. *)
Fixpoint validate_parts (parts : list string) : Py.result unit :=
  match parts with
  | [] => Py.Return tt
  | part :: rest =>
      if negb (truthy part) || (63 <? String.length part)%nat then
        Py.Raise (ValueError "Invalid FQDN part length")
      else if negb (label_match part) then
        Py.Raise (ValueError "Invalid FQDN format")
      else validate_parts rest
  end.

Definition validate_fqdn (v : string) : Py.result string :=
  if negb (truthy v) || (253 <? String.length v)%nat then
    Py.Raise (ValueError "Invalid FQDN length")
  else
    let parts := split "." v in
    if (length parts <? 2)%nat then
      Py.Raise (ValueError "FQDN must have at least two parts")
    else
      Py.rbind (validate_parts parts) (fun _ => Py.Return v).

Definition get_enabled_hosts (self : t) : list HostConfig.t :=
  filter HostConfig.enabled (hosts self).

Fixpoint find_host (hosts : list HostConfig.t) (name : string) : option HostConfig.t :=
  match hosts with
  | [] => None
  | host :: rest =>
      if String.eqb (HostConfig.name host) name then Some host
      else find_host rest name
  end.

Definition get_host_by_name (self : t) (name : string) : option HostConfig.t :=
  find_host (hosts self) name.

(** What the loop of [validate_fqdn] asks of one part. *)
Definition label_ok (part : string) : Prop :=
  part <> "" /\ (String.length part <= 63)%nat /\ label_match part = true.

End Config.

(* ================================================================== *)
(** * [cert_checker/checker/remote.py] *)
(* ================================================================== *)

Module Remote.
Import X509 PyStr.
Local Open Scope py_scope.

Inductive CertificateStatus : Type := VALID | WARNING | EXPIRED | ERROR.

Module ExpirationInfo.
Record t : Type := make {
  not_before : Z;
  not_after : Z;
  days_remaining : Z;
  is_expired : bool;
  is_warning : bool;
  status : CertificateStatus
}.
End ExpirationInfo.

Module HostCheckResult.
Record t : Type := make {
  host_name : string;
  fqdn : string;
  port : Z;
  status : CertificateStatus;
  certificate : option Certificate;
  certificate_chain : option (list Certificate);
  expiration : option ExpirationInfo.t;
  hostname_valid : option bool;
  error : option string
}.
End HostCheckResult.

(** The transport: connect to [(fqdn, port)] within [timeout], shake
    hands without peer verification, and hand back the parsed peer
    certificate, [None] when [getpeercert] is empty.  It raises on
    time-out, name resolution, socket and TLS errors. *)
Class Network : Type := {
  tls_peer_certificate : string -> Z -> Z -> Py.result (option Certificate)
}.

Definition get_certificate_chain `{Network}
    (self_timeout : Z) (fqdn : string) (port : Z) (timeout : option Z)
  : Py.result (list Certificate) :=
  let timeout := Py.or_int timeout self_timeout in
  der_cert_chain <~ tls_peer_certificate fqdn port timeout ;;
  match der_cert_chain with
  | Some cert => Py.Return [cert]
  | None => Py.Return []
  end.

Definition MICROSECONDS_PER_HOUR : Z := 3600 * 1000000.
Definition MICROSECONDS_PER_DAY : Z := 24 * MICROSECONDS_PER_HOUR.

(** [delta.days]: a [timedelta] is normalised with [0 <= seconds < 86400]
    and [0 <= microseconds], so its [days] is the floor. *)
Definition timedelta_days (delta : Z) : Z := delta / MICROSECONDS_PER_DAY.

(** [now] is the value of [datetime.now(timezone.utc)] read by the call. *)
Definition check_expiration (now : Z) (cert : Certificate) (warning_days : Z)
  : ExpirationInfo.t :=
  let '(not_before, not_after) := CertificateParser.get_validity_period cert in
  let days_remaining := timedelta_days (not_after - now) in
  let is_expired := (now >? not_after)%Z in
  let is_warning := negb is_expired && (days_remaining <? warning_days)%Z in
  let status :=
    if is_expired then EXPIRED
    else if is_warning then WARNING
    else VALID in
  ExpirationInfo.make not_before not_after days_remaining is_expired is_warning status.

(** The loop [for p, h in zip(ps, hs): if p != h: return False]. *)
Fixpoint zip_all_equal (ps hs : list string) : bool :=
  match ps, hs with
  | p :: ps', h :: hs' => if negb (String.eqb p h) then false else zip_all_equal ps' hs'
  | _, _ => true
  end.

Definition _match_hostname (pattern hostname : string) : bool :=
  let pattern := lower pattern in
  let hostname := lower hostname in
  if String.eqb pattern hostname then true
  else if startswith pattern "*." then
    let pattern_parts := split "." pattern in
    let hostname_parts := split "." hostname in
    if negb (Nat.eqb (length pattern_parts) (length hostname_parts)) then false
    else zip_all_equal (tl pattern_parts) (tl hostname_parts)
  else false.

Definition verify_hostname (cert : Certificate) (fqdn : string) : bool :=
  let cn := CertificateParser.get_subject_cn cert in
  if match cn with
     | Some c => truthy c && _match_hostname c fqdn
     | None => false
     end
  then true
  else existsb (fun san => _match_hostname san fqdn) (CertificateParser.get_san cert).

Definition error_result (host_name fqdn : string) (port : Z) (error : string)
  : HostCheckResult.t :=
  HostCheckResult.make host_name fqdn port ERROR None None None None (Some error).

Definition check_host `{Network} (now : Z) (self_timeout : Z)
    (fqdn : string) (port : Z) (warning_days : Z)
    (host_name : option string) (timeout : option Z)
  : Py.result HostCheckResult.t :=
  let host_name := Py.or_str host_name fqdn in
  Py.rtry
    (cert_chain <~ get_certificate_chain self_timeout fqdn port timeout ;;
     match cert_chain with
     | [] => Py.Return (error_result host_name fqdn port "No certificate received")
     | cert :: _ =>
         let expiration := check_expiration now cert warning_days in
         let hostname_valid := verify_hostname cert fqdn in
         let status := ExpirationInfo.status expiration in
         let status := if negb hostname_valid then ERROR else status in
         Py.Return (HostCheckResult.make host_name fqdn port status
                      (Some cert) (Some cert_chain) (Some expiration)
                      (Some hostname_valid) None)
     end)
    (fun e =>
       match e with
       | Py.socket_timeout _ =>
           Py.Return (error_result host_name fqdn port
             ("Connection timeout after "
                ++ str_of_Z (Py.or_int timeout self_timeout) ++ "s")%string)
       | Py.socket_gaierror _ =>
           Py.Return (error_result host_name fqdn port
             ("DNS resolution failed: " ++ Py.str e)%string)
       | Py.socket_error _ | Py.ssl_SSLError _ =>
           Py.Return (error_result host_name fqdn port
             ("Connection error: " ++ Py.str e)%string)
       | _ =>
           Py.Return (error_result host_name fqdn port
             ("Unexpected error: " ++ Py.str e)%string)
       end).

(** The loop of [check_all_hosts]; [now i] is the clock read while the
    [i]-th enabled host is checked. *)
Fixpoint check_hosts_loop `{Network} (now : nat -> Z) (self_timeout : Z)
    (settings_timeout : Z) (i : nat) (enabled_hosts : list Config.HostConfig.t)
    (results : list HostCheckResult.t) : Py.result (list HostCheckResult.t) :=
  match enabled_hosts with
  | [] => Py.Return results
  | host_config :: rest =>
      result <~ check_host (now i) self_timeout
                  (Config.HostConfig.fqdn host_config)
                  (Config.HostConfig.port host_config)
                  (Config.HostConfig.warning_days host_config)
                  (Some (Config.HostConfig.name host_config))
                  (Some settings_timeout) ;;
      check_hosts_loop now self_timeout settings_timeout (S i) rest
        (results ++ [result])
  end.

Definition check_all_hosts `{Network} (now : nat -> Z) (self_timeout : Z)
    (config : Config.t) : Py.result (list HostCheckResult.t) :=
  let results := [] in
  let enabled_hosts := Config.get_enabled_hosts config in
  check_hosts_loop now self_timeout
    (Config.SettingsConfig.timeout (Config.settings config)) 0 enabled_hosts results.

Definition check_host_config `{Network} (now : Z) (self_timeout : Z)
    (host_config : Config.HostConfig.t) (timeout : Z)
  : Py.result HostCheckResult.t :=
  check_host now self_timeout
    (Config.HostConfig.fqdn host_config)
    (Config.HostConfig.port host_config)
    (Config.HostConfig.warning_days host_config)
    (Some (Config.HostConfig.name host_config))
    (Some timeout).

End Remote.

(* ================================================================== *)
(** * [cert_checker/checker/validator.py] *)
(* ================================================================== *)

Module Validator.
Import X509 PyStr.
Local Open Scope py_scope.

Inductive ValidationStatus : Type := VALID | INVALID | WARNING.

Record ValidationResult : Type := Build {
  status : ValidationStatus;
  messages : list string;
  is_valid : bool
}.

(** One entry of the log: a call [verify_signature(cert, issuer_cert)]. *)
Inductive event : Type :=
| VerifyCall (cert issuer_cert : Certificate).

Definition M : Type -> Type := Py.M event.

(** The body of the [try] in [verify_signature]. *)
Definition verify_signature_try `{CryptoBackend}
    (cert issuer_cert : Certificate) : Py.result bool :=
  public_key <~ X509.public_key issuer_cert ;;
  let sig_algorithm := signature_algorithm_oid_name cert in
  match public_key with
  | RSAPublicKey key =>
      hash <~ signature_hash_algorithm cert ;;
      _ <~ rsa_verify key (signature cert) (tbs_certificate_bytes cert) PKCS1v15 hash ;;
      Py.Return true
  | EllipticCurvePublicKey key =>
      hash <~ signature_hash_algorithm cert ;;
      _ <~ ec_verify key (signature cert) (tbs_certificate_bytes cert) (ECDSA hash) ;;
      Py.Return true
  | DSAPublicKey key =>
      hash <~ signature_hash_algorithm cert ;;
      _ <~ dsa_verify key (signature cert) (tbs_certificate_bytes cert) hash ;;
      Py.Return true
  | OtherPublicKey _ => Py.Return false
  end.

Definition verify_signature `{CryptoBackend}
    (cert issuer_cert : Certificate) : M bool :=
  _ <- Py.log (VerifyCall cert issuer_cert) ;;
  Py.try_except
    (Py.lift (verify_signature_try cert issuer_cert))
    (fun e =>
       match e with
       | Py.InvalidSignature _ => Py.ret false
       | _ => Py.ret false
       end).

Definition check_key_usage (cert : Certificate) : ValidationResult :=
  match X509.key_usage cert with
  | Some key_usage =>
      match X509.basic_constraints cert with
      | Some basic_constraints =>
          if ca basic_constraints && negb (key_cert_sign key_usage) then
            Build INVALID ([] ++ ["CA certificate missing key_cert_sign usage"]) false
          else Build VALID ["Key usage valid"] true
      | None => Build VALID ["Key usage valid"] true
      end
  | None => Build WARNING ([] ++ ["Key usage extension not found"]) true
  end.

Definition check_basic_constraints (cert : Certificate) : ValidationResult :=
  match X509.basic_constraints cert with
  | Some basic_constraints =>
      let messages :=
        if ca basic_constraints then
          ["Certificate is a CA certificate"]
            ++ match path_length basic_constraints with
               | Some n => [("Path length constraint: " ++ str_of_nat n)%string]
               | None => []
               end
        else ["Certificate is not a CA certificate"] in
      Build VALID messages true
  | None => Build WARNING ["Basic constraints extension not found"] true
  end.

(** [[f"Cert {i}: {msg}" for msg in msgs]] *)
Definition tagged (i : nat) (msgs : list string) : list string :=
  map (fun msg => ("Cert " ++ str_of_nat i ++ ": " ++ msg)%string) msgs.

(** The first loop of [validate_chain], from index [i] on: [inl] is the
    [return] inside the loop, [inr] the messages when the loop ends. *)
Fixpoint structural_loop (i : nat) (certs : list Certificate)
    (messages : list string) : ValidationResult + list string :=
  match certs with
  | [] => inr messages
  | cert :: rest =>
      let bc_result := check_basic_constraints cert in
      let messages := messages ++ tagged i (Validator.messages bc_result) in
      let ku_result := check_key_usage cert in
      let messages := messages ++ tagged i (Validator.messages ku_result) in
      if negb (is_valid ku_result) then inl (Build INVALID messages false)
      else structural_loop (S i) rest messages
  end.

(** The second loop, over the pairs [(cert_chain[i], cert_chain[i + 1])]. *)
Fixpoint linkage_loop `{CryptoBackend} (i : nat) (certs : list Certificate)
    (messages : list string) : M (ValidationResult + list string) :=
  match certs with
  | cert :: ((issuer :: _) as rest) =>
      if negb (Name_eqb (X509.issuer cert) (subject issuer)) then
        Py.ret (inl (Build INVALID
          (messages ++ [("Cert " ++ str_of_nat i
                           ++ ": Issuer does not match next cert in chain")%string])
          false))
      else
        ok <- verify_signature cert issuer ;;
        if negb ok then
          Py.ret (inl (Build INVALID
            (messages ++ [("Cert " ++ str_of_nat i
                             ++ ": Invalid signature from issuer")%string])
            false))
        else
          linkage_loop (S i) rest
            (messages ++ [("Cert " ++ str_of_nat i ++ ": Signature valid")%string])
  | _ => Py.ret (inr messages)
  end.

(** The loop over the trust store: the flag [found_in_truststore] and the
    messages when the loop ends or breaks. *)
Fixpoint truststore_loop `{CryptoBackend} (root_cert : Certificate)
    (truststore : list Certificate) (messages : list string)
  : M (bool * list string) :=
  match truststore with
  | [] => Py.ret (false, messages)
  | trusted_cert :: rest =>
      if Name_eqb (subject root_cert) (subject trusted_cert) then
        ok <- verify_signature root_cert trusted_cert ;;
        if ok then
          Py.ret (true, messages ++ ["Root certificate found in truststore"])
        else truststore_loop root_cert rest messages
      else truststore_loop root_cert rest messages
  end.

(** [truststore] is [self.truststore]. *)
Definition validate_chain `{CryptoBackend} (truststore : list Certificate)
    (cert_chain : list Certificate) (use_truststore : bool)
  : M ValidationResult :=
  match cert_chain with
  | [] => Py.ret (Build INVALID ["Empty certificate chain"] false)
  | first :: _ =>
      match structural_loop 0 cert_chain [] with
      | inl failure => Py.ret failure
      | inr messages =>
          linked <- linkage_loop 0 cert_chain messages ;;
          match linked with
          | inl failure => Py.ret failure
          | inr messages =>
              if use_truststore && negb (Nat.eqb (length truststore) 0) then
                let root_cert := last cert_chain first in
                found <- truststore_loop root_cert truststore messages ;;
                let '(found_in_truststore, messages) := found in
                if negb found_in_truststore then
                  Py.ret (Build INVALID
                    (messages ++ ["Root certificate not found in truststore"])
                    false)
                else Py.ret (Build VALID messages true)
              else Py.ret (Build VALID messages true)
          end
      end
  end.

Definition validate_single `{CryptoBackend} (cert : Certificate)
  : M ValidationResult :=
  let messages := [] in
  let bc_result := check_basic_constraints cert in
  let messages := messages ++ Validator.messages bc_result in
  let ku_result := check_key_usage cert in
  let messages := messages ++ Validator.messages ku_result in
  if negb (is_valid ku_result) then Py.ret (Build INVALID messages false)
  else if Name_eqb (subject cert) (X509.issuer cert) then
    ok <- verify_signature cert cert ;;
    if ok then
      Py.ret (Build VALID
        (messages ++ ["Self-signed certificate with valid signature"]) true)
    else
      Py.ret (Build INVALID
        (messages ++ ["Self-signed certificate with INVALID signature"]) false)
  else Py.ret (Build VALID messages true).

(** ** Notions used to state the properties *)

(** What [verify_signature(cert, issuer_cert)] returns. *)
Definition signature_verifies `{CryptoBackend}
    (cert issuer_cert : Certificate) : bool :=
  match verify_signature_try cert issuer_cert with
  | Py.Return b => b
  | Py.Raise _ => false
  end.

(** A pair that passes both tests of the second loop. *)
Definition linked `{CryptoBackend} (cert issuer_cert : Certificate) : bool :=
  Name_eqb (X509.issuer cert) (subject issuer_cert)
    && signature_verifies cert issuer_cert.

Fixpoint links_ok `{CryptoBackend} (certs : list Certificate) : bool :=
  match certs with
  | cert :: ((issuer :: _) as rest) => linked cert issuer && links_ok rest
  | _ => true
  end.

(** The verifier calls on the adjacent pairs of [certs], in order. *)
Fixpoint link_calls (certs : list Certificate) : list event :=
  match certs with
  | cert :: ((issuer :: _) as rest) => VerifyCall cert issuer :: link_calls rest
  | _ => []
  end.

(** The confirmations of the pairs [i], ..., [i + n - 1]. *)
Fixpoint link_confirmations (i n : nat) : list string :=
  match n with
  | O => []
  | S n' => ("Cert " ++ str_of_nat i ++ ": Signature valid")%string
              :: link_confirmations (S i) n'
  end.

(** The certificate on which the first loop returns. *)
Definition key_usage_fatal (cert : Certificate) : bool :=
  negb (is_valid (check_key_usage cert)).

(** The messages one certificate adds in the first loop. *)
Definition structural_messages_of (i : nat) (cert : Certificate) : list string :=
  tagged i (messages (check_basic_constraints cert))
    ++ tagged i (messages (check_key_usage cert)).

(** The messages of the first loop over [certs], numbered from [i]. *)
Fixpoint structural_messages (i : nat) (certs : list Certificate) : list string :=
  match certs with
  | [] => []
  | cert :: rest => structural_messages_of i cert ++ structural_messages (S i) rest
  end.

(** An anchor that carries the subject of [root_cert] and whose key
    verifies it. *)
Definition anchors `{CryptoBackend} (root_cert trusted_cert : Certificate) : bool :=
  Name_eqb (subject root_cert) (subject trusted_cert)
    && signature_verifies root_cert trusted_cert.

(** The verifier calls of the loop over the trust store: one for each
    anchor with the subject of [root_cert], up to the first that
    verifies. *)
Fixpoint trust_calls `{CryptoBackend} (root_cert : Certificate)
    (truststore : list Certificate) : list event :=
  match truststore with
  | [] => []
  | trusted_cert :: rest =>
      if Name_eqb (subject root_cert) (subject trusted_cert) then
        VerifyCall root_cert trusted_cert
          :: (if signature_verifies root_cert trusted_cert then []
              else trust_calls root_cert rest)
      else trust_calls root_cert rest
  end.

(** The verdict of [validate_chain] as one decision: a non-empty chain,
    no certificate on which the first loop returns, every adjacent pair
    linked, and, when the trust store is asked for and not empty, an
    anchor for the last certificate. *)
Definition chain_accepted `{CryptoBackend} (truststore cert_chain : list Certificate)
    (use_truststore : bool) : bool :=
  match cert_chain with
  | [] => false
  | first :: _ =>
      forallb (fun c => negb (key_usage_fatal c)) cert_chain
      && links_ok cert_chain
      && (negb (use_truststore && negb (Nat.eqb (length truststore) 0))
          || existsb (anchors (last cert_chain first)) truststore)
  end.

(** The pairs the verifier may be called on: two neighbours of the chain,
    or the last certificate with an anchor that carries its subject. *)
Definition expected_call (truststore cert_chain : list Certificate) (ev : event)
  : Prop :=
  match ev with
  | VerifyCall cert issuer_cert =>
      (exists before after, cert_chain = before ++ cert :: issuer_cert :: after) \/
      (exists before, cert_chain = before ++ [cert]) /\ In issuer_cert truststore /\
      subject cert = subject issuer_cert
  end.

(** [add_trusted_cert]: the new value of [self.truststore]. *)
Definition add_trusted_cert (truststore : list Certificate) (cert : Certificate)
  : list Certificate :=
  truststore ++ [cert].

End Validator.

(* ================================================================== *)
(** * [cert_checker/store/truststore.py]: the entries of a trust store *)
(* ================================================================== *)

Module TruststoreManager.
Import X509.

Record CertificateEntry : Type := Entry {
  alias : string;
  certificate : Certificate;
  entry_type : string
}.

(** [self.entries]: a [dict] from alias to entry.  A Python [dict] keeps
    its keys in insertion order, which [list_certificates] shows, so it is
    a list of bindings with one binding per key. *)
Definition entries : Type := list (string * CertificateEntry).

(** [d.get(k)] *)
Fixpoint dict_get (d : entries) (k : string) : option CertificateEntry :=
  match d with
  | [] => None
  | (k', v) :: rest => if String.eqb k' k then Some v else dict_get rest k
  end.

(** [k in d] *)
Definition dict_in (d : entries) (k : string) : bool :=
  match dict_get d k with
  | Some _ => true
  | None => false
  end.

(** [d[k] = v]: an existing key keeps its place, a new key goes last. *)
Fixpoint dict_set (d : entries) (k : string) (v : CertificateEntry) : entries :=
  match d with
  | [] => [(k, v)]
  | (k', v') :: rest =>
      if String.eqb k' k then (k', v) :: rest
      else (k', v') :: dict_set rest k v
  end.

(** [del d[k]] *)
Fixpoint dict_del (d : entries) (k : string) : entries :=
  match d with
  | [] => []
  | (k', v') :: rest =>
      if String.eqb k' k then rest else (k', v') :: dict_del rest k
  end.

Definition list_certificates (self : entries) : list CertificateEntry :=
  map snd self.

Definition get_certificate (self : entries) (alias : string) : option Certificate :=
  match dict_get self alias with
  | Some entry => Some (certificate entry)
  | None => None
  end.

(** The outcome and the entries after the call. *)
Definition add_certificate (self : entries) (cert : Certificate) (alias : string)
    (overwrite : bool) : Py.result bool * entries :=
  if dict_in self alias && negb overwrite then
    (Py.Raise (Config.ValueError ("Alias '" ++ alias ++ "' already exists")%string),
     self)
  else
    (Py.Return true, dict_set self alias (Entry alias cert "trusted_cert")).

Definition remove_certificate (self : entries) (alias : string) : bool * entries :=
  if dict_in self alias then (true, dict_del self alias)
  else (false, self).

End TruststoreManager.

(* ================================================================== *)
(** * [cert_checker/utils/display.py]: the rows of the CSV export *)
(* ================================================================== *)

Module Display.
Import X509 PyStr Remote.

(** [not_after.strftime("%Y-%m-%d")] *)
Class Calendar : Type := {
  strftime_ymd : Z -> string
}.

(** [status.value] *)
Definition status_value (status : CertificateStatus) : string :=
  match status with
  | VALID => "valid"
  | WARNING => "warning"
  | EXPIRED => "expired"
  | ERROR => "error"
  end.

Definition csv_header : string :=
  "Host,FQDN,Port,Status,Subject,Issuer,Expiry,Days Remaining,Error".

(** What one turn of the loop of [export_csv] appends to [lines]: one row
    for a result with a non-empty error, one row for a result with
    certificate and expiration, and nothing for any other result. *)
Definition csv_rows `{Calendar} (result : HostCheckResult.t) : list string :=
  if match HostCheckResult.error result with
     | Some e => truthy e
     | None => false
     end
  then
    [(HostCheckResult.host_name result ++ "," ++ HostCheckResult.fqdn result ++ ","
        ++ str_of_Z (HostCheckResult.port result) ++ ","
        ++ status_value (HostCheckResult.status result) ++ ",,,,"
        ++ Py.or_str (HostCheckResult.error result) "")%string]
  else
    match HostCheckResult.certificate result, HostCheckResult.expiration result with
    | Some cert, Some expiration =>
        let subject_cn := Py.or_str (CertificateParser.get_subject_cn cert) "" in
        let issuer_cn := Py.or_str (CertificateParser.get_issuer_cn cert) "" in
        let expiry := strftime_ymd (ExpirationInfo.not_after expiration) in
        let days := ExpirationInfo.days_remaining expiration in
        [(HostCheckResult.host_name result ++ "," ++ HostCheckResult.fqdn result ++ ","
            ++ str_of_Z (HostCheckResult.port result) ++ ","
            ++ status_value (HostCheckResult.status result) ++ ","
            ++ subject_cn ++ "," ++ issuer_cn ++ ","
            ++ expiry ++ "," ++ str_of_Z days ++ ",")%string]
    | _, _ => []
    end.

(** The list [lines] when the loop of [export_csv] ends. *)
Definition export_csv_lines `{Calendar} (results : list HostCheckResult.t)
  : list string :=
  fold_left (fun lines result => lines ++ csv_rows result) results [csv_header].

End Display.

(* ================================================================== *)
(** * Sample data: a toy backend, a small PKI and two transports *)
(* ================================================================== *)

Module Samples.
Import X509.

(** A signature by [key] over [data] is the text [key/data]; RSA
    insists on PKCS#1 v1.5. *)
Definition toy_check (key sig data : bytes) : Py.result unit :=
  if String.eqb sig (key ++ "/" ++ data)%string then Py.Return tt
  else Py.Raise (Py.InvalidSignature "").

Definition toy_backend : CryptoBackend := {|
  rsa_verify key sig data pad _ :=
    match pad with
    | PKCS1v15 => toy_check key sig data
    | _ => Py.Raise (Py.Exception "unsupported padding")
    end;
  ec_verify key sig data _ := toy_check key sig data;
  dsa_verify key sig data _ := toy_check key sig data
|}.

Definition dn (cn : string) : Name := [ {| oid := COMMON_NAME; value := cn |} ].

Definition ca_constraints : option BasicConstraints :=
  Some {| ca := true; path_length := None |}.

Definition ca_usage : option KeyUsage :=
  Some {| digital_signature := false; key_encipherment := false;
          key_cert_sign := true; crl_sign := true |}.

Definition leaf_usage : option KeyUsage :=
  Some {| digital_signature := true; key_encipherment := true;
          key_cert_sign := false; crl_sign := false |}.

Definition cert (subj iss : string) (key : PublicKey) (tbs sig : bytes)
    (bc : option BasicConstraints) (ku : option KeyUsage)
    (san : option (list GeneralName)) : Certificate := {|
  subject := dn subj;
  issuer := dn iss;
  not_valid_before_utc := 0;
  not_valid_after_utc := 2000000000000000;
  public_key := Py.Return key;
  signature := sig;
  tbs_certificate_bytes := tbs;
  signature_algorithm_oid_name := "sha256WithRSAEncryption";
  signature_hash_algorithm := Py.Return (Some SHA256);
  basic_constraints := bc;
  key_usage := ku;
  subject_alternative_name := san
|}.

Definition root : Certificate :=
  cert "Root CA" "Root CA" (RSAPublicKey "root-key") "root-tbs"
    "root-key/root-tbs" ca_constraints ca_usage None.

(** Same subject and key as [root], but issued by another authority. *)
Definition cross_root : Certificate :=
  cert "Root CA" "Legacy CA" (RSAPublicKey "root-key") "cross-tbs"
    "root-key/cross-tbs" ca_constraints ca_usage None.

(** Same subject as [root], an unrelated key. *)
Definition impostor : Certificate :=
  cert "Root CA" "Root CA" (RSAPublicKey "evil-key") "evil-tbs"
    "evil-key/evil-tbs" ca_constraints ca_usage None.

Definition intermediate : Certificate :=
  cert "Intermediate CA" "Root CA" (EllipticCurvePublicKey "int-key") "int-tbs"
    "root-key/int-tbs" ca_constraints ca_usage None.

(** An intermediate whose signature is not the root's. *)
Definition forged_intermediate : Certificate :=
  cert "Intermediate CA" "Root CA" (EllipticCurvePublicKey "int-key") "int-tbs"
    "evil-key/int-tbs" ca_constraints ca_usage None.

(** A CA certificate whose key usage lacks [key_cert_sign]. *)
Definition weak_ca : Certificate :=
  cert "Intermediate CA" "Root CA" (EllipticCurvePublicKey "int-key") "int-tbs"
    "root-key/int-tbs" ca_constraints leaf_usage None.

(** A leaf without basic constraints and without key usage. *)
Definition leaf : Certificate :=
  cert "api.example.com" "Intermediate CA" (DSAPublicKey "leaf-key") "leaf-tbs"
    "int-key/leaf-tbs" None None (Some [DNSName "*.example.com"; IPAddress "10.0.0.1"]).

(** A leaf naming an issuer that is not in the chain. *)
Definition stray_leaf : Certificate :=
  cert "api.example.com" "Unknown CA" (DSAPublicKey "leaf-key") "leaf-tbs"
    "int-key/leaf-tbs" None None None.

Definition ed25519_signer : Certificate :=
  cert "Ed CA" "Ed CA" (OtherPublicKey "ed-key") "ed-tbs" "ed-key/ed-tbs"
    ca_constraints ca_usage None.

(** A transport that always presents [leaf]. *)
Definition serves_leaf : Remote.Network := {|
  Remote.tls_peer_certificate _ _ _ := Py.Return (Some leaf)
|}.

(** A transport on which no name resolves. *)
Definition no_dns : Remote.Network := {|
  Remote.tls_peer_certificate _ _ _ :=
    Py.Raise (Py.socket_gaierror "[Errno -2] Name or service not known")
|}.

(** A transport on which only [api.example.com] answers. *)
Definition one_host_up : Remote.Network := {|
  Remote.tls_peer_certificate fqdn _ _ :=
    if String.eqb fqdn "api.example.com" then Py.Return (Some leaf)
    else Py.Raise (Py.socket_gaierror "[Errno -2] Name or service not known")
|}.

Definition three_hosts : Config.t :=
  Config.make
    (Config.SettingsConfig.make 5 true true 443)
    [Config.HostConfig.make "down" "nowhere.invalid" 443 true 30 false;
     Config.HostConfig.make "off" "api.example.com" 8443 false 30 false;
     Config.HostConfig.make "api" "api.example.com" 443 true 30 false].

Definition two_entries : TruststoreManager.entries :=
  [("root", TruststoreManager.Entry "root" root "trusted_cert");
   ("legacy", TruststoreManager.Entry "legacy" cross_root "trusted_cert")].

(** A subject with two common names. *)
Definition two_names : Certificate :=
  {| subject := [ {| oid := "organizationName"; value := "Example" |};
                  {| oid := COMMON_NAME; value := "first.example.com" |};
                  {| oid := COMMON_NAME; value := "second.example.com" |} ];
     issuer := dn "Root CA";
     not_valid_before_utc := 0;
     not_valid_after_utc := 2000000000000000;
     public_key := Py.Return (RSAPublicKey "two-key");
     signature := "root-key/two-tbs";
     tbs_certificate_bytes := "two-tbs";
     signature_algorithm_oid_name := "sha256WithRSAEncryption";
     signature_hash_algorithm := Py.Return (Some SHA256);
     basic_constraints := None;
     key_usage := None;
     subject_alternative_name := None |}.

Definition fixed_calendar : Display.Calendar := {|
  Display.strftime_ymd _ := "2033-05-18"
|}.

End Samples.

(* ================================================================== *)
(** * Facts about strings *)
(* ================================================================== *)

Module PyStrFacts.
Import PyStr.

Lemma lower_char_idem (c : ascii) : lower_char (lower_char c) = lower_char c.
Proof. destruct c as [[] [] [] [] [] [] [] []]; reflexivity. Qed.

Lemma lower_idem (s : string) : lower (lower s) = lower s.
Proof.
  induction s as [|c s IH]; simpl; [reflexivity|].
  now rewrite lower_char_idem, IH.
Qed.

Lemma split_not_nil sep s : split sep s <> [].
Proof.
  destruct s as [|c s]; simpl; [discriminate|].
  destruct (Ascii.eqb c sep); [discriminate|].
  destruct (split sep s); discriminate.
Qed.

Lemma split_cons sep s : exists w ws, split sep s = w :: ws.
Proof.
  destruct (split sep s) as [|w ws] eqn:E.
  - now apply split_not_nil in E.
  - now exists w, ws.
Qed.

Lemma join_cons sep w ws :
  ws <> [] -> join sep (w :: ws) = (w ++ String sep (join sep ws))%string.
Proof. destruct ws; [congruence | reflexivity]. Qed.

(** Joining what was split gives the string back. *)
Lemma join_split sep s : join sep (split sep s) = s.
Proof.
  induction s as [|c s IH]; [reflexivity|].
  simpl split. destruct (Ascii.eqb_spec c sep) as [->|Hne].
  - rewrite join_cons by apply split_not_nil. now rewrite IH.
  - destruct (split sep s) as [|w ws] eqn:E; [now apply split_not_nil in E|].
    rewrite <- IH. destruct ws; reflexivity.
Qed.

(** Every piece of a split is free of the separator. *)
Lemma split_free sep s : Forall (fun w => free_of sep w = true) (split sep s).
Proof.
  induction s as [|c s IH]; simpl.
  - now constructor.
  - destruct (Ascii.eqb c sep) eqn:E.
    + now constructor.
    + destruct (split sep s) as [|w ws].
      * repeat constructor. simpl. now rewrite E.
      * inversion IH; subst. constructor; [|assumption].
        simpl. now rewrite E.
Qed.

(** A separator-free label followed by the separator is the first piece. *)
Lemma split_app sep l r :
  free_of sep l = true ->
  split sep (l ++ String sep r)%string = l :: split sep r.
Proof.
  induction l as [|c l IH]; simpl; intros H.
  - now rewrite Ascii.eqb_refl.
  - apply andb_true_iff in H as [Hc Hl]. apply negb_true_iff in Hc.
    now rewrite Hc, (IH Hl).
Qed.

(** A label in front of a separator that is free of it is determined by
    the whole string. *)
Lemma label_unique sep l1 l2 r1 r2 :
  free_of sep l1 = true -> free_of sep l2 = true ->
  (l1 ++ String sep r1)%string = (l2 ++ String sep r2)%string -> l1 = l2.
Proof.
  intros H1 H2 E.
  apply (f_equal (split sep)) in E.
  rewrite !split_app in E by assumption. congruence.
Qed.

(** The characters below U+0100 that [str.lower] changes, and how. *)
Example lower_char_table :
  filter (fun n => negb (nat_of_ascii (lower_char (ascii_of_nat n)) =? n)%nat)
         (seq 0 256)
  = seq 65 26 ++ seq 192 23 ++ seq 216 7 /\
  forallb (fun n => (nat_of_ascii (lower_char (ascii_of_nat n)) =? n + 32)%nat)
          (seq 65 26 ++ seq 192 23 ++ seq 216 7) = true.
Proof. split; vm_compute; reflexivity. Qed.

End PyStrFacts.

(* ================================================================== *)
(** * Properties of [remote.py] *)
(* ================================================================== *)

Module RemoteSpec.
Import X509 PyStr PyStrFacts Remote.

(** On lists of one length the loop over [zip] decides equality. *)
Lemma zip_all_equal_eq (ps hs : list string) :
  length ps = length hs -> (zip_all_equal ps hs = true <-> ps = hs).
Proof.
  revert hs. induction ps as [|p ps IH]; intros [|h hs] L; simpl in *; try discriminate.
  - tauto.
  - destruct (String.eqb_spec p h) as [->|Hne]; simpl.
    + rewrite IH by lia. split; [now intros -> | congruence].
    + split; [discriminate | congruence].
Qed.

Lemma length_tl {A} (l : list A) : length (tl l) = pred (length l).
Proof. now destruct l. Qed.

(** With a leading ["*."] the outcome is the comparison of the labels
    after the first. *)
Lemma match_wildcard_labels (pattern hostname : string) :
  startswith (lower pattern) "*." = true ->
  (_match_hostname pattern hostname = true <->
     length (split "." (lower pattern)) = length (split "." (lower hostname)) /\
     tl (split "." (lower pattern)) = tl (split "." (lower hostname))).
Proof.
  intros W. unfold _match_hostname. rewrite W.
  destruct (String.eqb_spec (lower pattern) (lower hostname)) as [E|NE].
  - rewrite E. tauto.
  - destruct (Nat.eqb_spec (length (split "." (lower pattern)))
                           (length (split "." (lower hostname)))) as [L|NL]; simpl.
    + rewrite zip_all_equal_eq by (rewrite !length_tl; now rewrite L). tauto.
    + split; [discriminate | tauto].
Qed.

Lemma match_wildcard_label (pattern hostname rest : string) :
  lower pattern = ("*." ++ rest)%string ->
  (_match_hostname pattern hostname = true <->
     exists label, free_of "." label = true /\
                   lower hostname = (label ++ "." ++ rest)%string).
Proof.
  intros P.
  assert (W : startswith (lower pattern) "*." = true).
  { rewrite P. reflexivity. }
  assert (S : split "." (lower pattern) = "*" :: split "." rest).
  { rewrite P. now apply (split_app "." "*" rest). }
  rewrite (match_wildcard_labels _ _ W), S. simpl tl. split.
  - intros [L T].
    destruct (split_cons "." (lower hostname)) as (w & ws & Hs).
    pose proof (split_free "." (lower hostname)) as F.
    pose proof (join_split "." (lower hostname)) as J.
    rewrite Hs in *. simpl in T. subst ws.
    exists w. split; [now inversion F|].
    rewrite <- J, join_cons by apply split_not_nil.
    now rewrite join_split.
  - intros (label & F & H).
    assert (Sh : split "." (lower hostname) = label :: split "." rest).
    { rewrite H. now apply split_app. }
    rewrite Sh. now split.
Qed.

Lemma match_no_wildcard (pattern hostname : string) :
  startswith (lower pattern) "*." = false ->
  (_match_hostname pattern hostname = true <-> lower pattern = lower hostname).
Proof.
  intros W. unfold _match_hostname. rewrite W.
  destruct (String.eqb_spec (lower pattern) (lower hostname)); split; congruence.
Qed.

(** C1 (as amended).  [_match_hostname] is case-insensitive (its answer
    depends on the lower-cased pattern and host name only) and succeeds on
    exact equality.  A pattern with a leading ["*."] succeeds exactly
    when pattern and host name split into equally many labels and all
    labels after the first agree, that is, when the host name is one
    dot-free label followed by the rest of the pattern; that label may be
    empty.  Without a leading ["*."] only equality succeeds.
    ["*.example.com"] matches ["api.example.com"], but neither
    ["example.com"] nor ["a.b.example.com"], and ["f*.example.com"]
    does not match ["foo.example.com"]. *)
Theorem match_hostname_spec (pattern hostname : string) :
  _match_hostname pattern hostname
    = _match_hostname (lower pattern) (lower hostname) /\
  (forall pattern' hostname',
     lower pattern' = lower pattern -> lower hostname' = lower hostname ->
     _match_hostname pattern' hostname' = _match_hostname pattern hostname) /\
  (lower pattern = lower hostname -> _match_hostname pattern hostname = true) /\
  (startswith (lower pattern) "*." = true ->
     (_match_hostname pattern hostname = true <->
        length (split "." (lower pattern)) = length (split "." (lower hostname)) /\
        tl (split "." (lower pattern)) = tl (split "." (lower hostname)))) /\
  (forall rest, lower pattern = ("*." ++ rest)%string ->
     (_match_hostname pattern hostname = true <->
        exists label, free_of "." label = true /\
                      lower hostname = (label ++ "." ++ rest)%string)) /\
  (startswith (lower pattern) "*." = false ->
     (_match_hostname pattern hostname = true <-> lower pattern = lower hostname)) /\
  _match_hostname "*.example.com" "api.example.com" = true /\
  _match_hostname "*.example.com" "example.com" = false /\
  _match_hostname "*.example.com" "a.b.example.com" = false /\
  _match_hostname "f*.example.com" "foo.example.com" = false.
Proof.
  split; [unfold _match_hostname; now rewrite !lower_idem|].
  split; [intros pattern' hostname' Ep Eh; unfold _match_hostname; now rewrite Ep, Eh|].
  split; [intros E; unfold _match_hostname; rewrite E; now rewrite String.eqb_refl|].
  split; [apply match_wildcard_labels|].
  split; [intros rest; apply match_wildcard_label|].
  split; [apply match_no_wildcard|].
  repeat split.
Qed.

Lemma match_hostname_spec_witness :
  _match_hostname "*.Example.COM" "API.example.com" = true.
Proof.
  destruct (match_hostname_spec "*.Example.COM" "API.example.com")
    as (_ & _ & _ & _ & W & _).
  apply (W "example.com" eq_refl).
  exists "api". split; reflexivity.
Defined.

(** C1 as stated fails: the label under the wildcard need not be
    non-empty, [".example.com"] is matched by ["*.example.com"]. *)
Lemma match_hostname_empty_label :
  ~ (forall pattern hostname rest,
       lower pattern = ("*." ++ rest)%string ->
       _match_hostname pattern hostname = true ->
       exists label, label <> "" /\ free_of "." label = true /\
                     lower hostname = (label ++ "." ++ rest)%string).
Proof.
  intros C.
  destruct (C "*.example.com" ".example.com" "example.com" eq_refl eq_refl)
    as (label & NE & F & H).
  apply NE. symmetry.
  apply (label_unique "." "" label "example.com" "example.com");
    [reflexivity | assumption | exact H].
Qed.

(** Letters beyond ASCII are folded too: a capital A with grave matches
    the small one. *)
Example match_hostname_latin_capital :
  _match_hostname (String (ascii_of_nat 192) ".example.com")
                  (String (ascii_of_nat 224) ".example.com") = true /\
  _match_hostname (String (ascii_of_nat 215) ".example.com")
                  (String (ascii_of_nat 247) ".example.com") = false.
Proof. split; reflexivity. Qed.

Local Open Scope Z_scope.

(** C4.  The status is [EXPIRED] exactly when [now > not_after],
    [WARNING] exactly when it is not and [days_remaining < warning_days],
    and [VALID] in every other case; the flags agree with the status. *)
Theorem check_expiration_status (now : Z) (cert : Certificate) (warning_days : Z) :
  (ExpirationInfo.status (check_expiration now cert warning_days) = EXPIRED
     <-> now > not_valid_after_utc cert) /\
  (ExpirationInfo.status (check_expiration now cert warning_days) = WARNING
     <-> ~ now > not_valid_after_utc cert /\
         ExpirationInfo.days_remaining (check_expiration now cert warning_days)
           < warning_days) /\
  (ExpirationInfo.status (check_expiration now cert warning_days) = VALID
     <-> ~ now > not_valid_after_utc cert /\
         ~ ExpirationInfo.days_remaining (check_expiration now cert warning_days)
             < warning_days) /\
  (ExpirationInfo.is_expired (check_expiration now cert warning_days) = true
     <-> now > not_valid_after_utc cert) /\
  (ExpirationInfo.is_warning (check_expiration now cert warning_days) = true
     <-> ExpirationInfo.status (check_expiration now cert warning_days) = WARNING) /\
  ExpirationInfo.days_remaining (check_expiration now cert warning_days)
    = (not_valid_after_utc cert - now) / MICROSECONDS_PER_DAY /\
  ExpirationInfo.status (check_expiration now cert warning_days) <> ERROR.
Proof.
  unfold check_expiration, CertificateParser.get_validity_period, timedelta_days.
  cbn [ExpirationInfo.status ExpirationInfo.days_remaining
       ExpirationInfo.is_expired ExpirationInfo.is_warning].
  destruct (Z.gtb_spec now (not_valid_after_utc cert)) as [G|G];
    destruct (Z.ltb_spec ((not_valid_after_utc cert - now) / MICROSECONDS_PER_DAY)
                         warning_days) as [W|W];
    cbn [negb andb];
    repeat split; intros; try discriminate; try congruence; try lia;
    try (exfalso; lia).
Qed.

Lemma days_23h_past (na : Z) :
  (na - (na + 23 * MICROSECONDS_PER_HOUR)) / MICROSECONDS_PER_DAY = -1.
Proof.
  replace (na - (na + 23 * MICROSECONDS_PER_HOUR))
    with (- (23 * MICROSECONDS_PER_HOUR)) by lia.
  reflexivity.
Qed.

(** C9 (as amended).  [is_expired] and the floored [days_remaining] never
    disagree: the certificate is expired exactly when [days_remaining] is
    negative.  Twenty-three hours past [not_after], [is_expired] is true
    and [days_remaining] is [-1]. *)
Theorem expired_iff_negative_days (now : Z) (cert : Certificate) (warning_days : Z) :
  (ExpirationInfo.is_expired (check_expiration now cert warning_days) = true
     <-> ExpirationInfo.days_remaining (check_expiration now cert warning_days) < 0) /\
  ExpirationInfo.is_expired
    (check_expiration (not_valid_after_utc cert + 23 * MICROSECONDS_PER_HOUR)
       cert warning_days) = true /\
  ExpirationInfo.days_remaining
    (check_expiration (not_valid_after_utc cert + 23 * MICROSECONDS_PER_HOUR)
       cert warning_days) = -1.
Proof.
  unfold check_expiration, CertificateParser.get_validity_period, timedelta_days.
  cbn [ExpirationInfo.days_remaining ExpirationInfo.is_expired].
  split; [|split].
  - assert (D : 0 < MICROSECONDS_PER_DAY) by reflexivity.
    rewrite Z.gtb_ltb, Z.ltb_lt. split; intros H.
    + apply Z.div_lt_upper_bound; lia.
    + destruct (Z.lt_ge_cases (not_valid_after_utc cert) now) as [L|L]; [assumption|].
      assert (0 <= (not_valid_after_utc cert - now) / MICROSECONDS_PER_DAY)
        by (apply Z.div_pos; lia).
      lia.
  - rewrite Z.gtb_ltb, Z.ltb_lt. unfold MICROSECONDS_PER_HOUR. lia.
  - apply days_23h_past.
Qed.

(** C9 as stated fails: twenty-three hours past [not_after] the floored
    [days_remaining] is never [0]. *)
Lemma expired_23h_days_not_zero :
  ~ (exists cert warning_days now,
       now = not_valid_after_utc cert + 23 * MICROSECONDS_PER_HOUR /\
       ExpirationInfo.is_expired (check_expiration now cert warning_days) = true /\
       ExpirationInfo.days_remaining (check_expiration now cert warning_days) = 0).
Proof.
  intros (cert & wd & now & -> & _ & D).
  unfold check_expiration, CertificateParser.get_validity_period, timedelta_days in D.
  cbn [ExpirationInfo.days_remaining] in D.
  rewrite days_23h_past in D. discriminate.
Qed.

(** Scenarios 1 and 2 of the specification, and the instant 23 hours past
    [not_after]. *)
Example expiration_ten_days_left :
  check_expiration (2000000000000000 - 10 * MICROSECONDS_PER_DAY) Samples.leaf 30
  = ExpirationInfo.make 0 2000000000000000 10 false true WARNING.
Proof. reflexivity. Qed.

Example expiration_five_days_past :
  check_expiration (2000000000000000 + 5 * MICROSECONDS_PER_DAY) Samples.leaf 30
  = ExpirationInfo.make 0 2000000000000000 (-5) true false EXPIRED.
Proof. reflexivity. Qed.

Example expiration_23_hours_past :
  check_expiration (2000000000000000 + 23 * MICROSECONDS_PER_HOUR) Samples.leaf 30
  = ExpirationInfo.make 0 2000000000000000 (-1) true false EXPIRED.
Proof. reflexivity. Qed.

(** C6.  When a certificate is received, [check_host] reports the
    status of the expiration check, unless the host name does not match,
    in which case the status is [ERROR] whatever the expiration status. *)
Theorem check_host_status `{Network} (now self_timeout : Z) (fqdn : string)
    (port warning_days : Z) (host_name : option string) (timeout : option Z)
    (cert : Certificate) (rest : list Certificate) :
  get_certificate_chain self_timeout fqdn port timeout = Py.Return (cert :: rest) ->
  exists r,
    check_host now self_timeout fqdn port warning_days host_name timeout
      = Py.Return r /\
    HostCheckResult.certificate r = Some cert /\
    HostCheckResult.expiration r = Some (check_expiration now cert warning_days) /\
    HostCheckResult.hostname_valid r = Some (verify_hostname cert fqdn) /\
    HostCheckResult.error r = None /\
    (verify_hostname cert fqdn = true ->
       HostCheckResult.status r
         = ExpirationInfo.status (check_expiration now cert warning_days)) /\
    (verify_hostname cert fqdn = false -> HostCheckResult.status r = ERROR).
Proof.
  intros F. unfold check_host. rewrite F. cbn [Py.rbind Py.rtry].
  eexists. split; [reflexivity|].
  cbn [HostCheckResult.certificate HostCheckResult.expiration
       HostCheckResult.hostname_valid HostCheckResult.error HostCheckResult.status].
  repeat split; intros V; now rewrite V.
Qed.

Lemma check_host_status_witness :
  exists r,
    check_host (H := Samples.serves_leaf) 0 10 "www.example.org" 443 30 None None
      = Py.Return r /\
    ExpirationInfo.status (check_expiration 0 Samples.leaf 30) = VALID /\
    HostCheckResult.status r = ERROR.
Proof.
  destruct (check_host_status (H := Samples.serves_leaf)
              0 10 "www.example.org" 443 30 None None Samples.leaf [] eq_refl)
    as (r & E & _ & _ & _ & _ & _ & M).
  exists r. split; [exact E|]. split; [reflexivity|]. apply M. reflexivity.
Defined.

(** C7.  [check_host] returns for every input and every behaviour of the
    transport.  Whenever no certificate comes back (an empty response or
    any exception) the result has status [ERROR], a non-empty error text
    and neither certificate nor expiration; and every result has either
    the error, or the certificate and the expiration, never both. *)
Theorem check_host_never_raises `{Network} (now self_timeout : Z) (fqdn : string)
    (port warning_days : Z) (host_name : option string) (timeout : option Z) :
  exists r,
    check_host now self_timeout fqdn port warning_days host_name timeout
      = Py.Return r /\
    ((HostCheckResult.status r = ERROR /\
      (exists msg, HostCheckResult.error r = Some msg /\ msg <> "") /\
      HostCheckResult.certificate r = None /\
      HostCheckResult.expiration r = None)
     \/
     (HostCheckResult.error r = None /\
      (exists cert, HostCheckResult.certificate r = Some cert) /\
      (exists info, HostCheckResult.expiration r = Some info))) /\
    ((forall cert rest,
        get_certificate_chain self_timeout fqdn port timeout
          <> Py.Return (cert :: rest)) ->
     HostCheckResult.status r = ERROR /\
     (exists msg, HostCheckResult.error r = Some msg /\ msg <> "") /\
     HostCheckResult.certificate r = None /\
     HostCheckResult.expiration r = None) /\
    (get_certificate_chain self_timeout fqdn port timeout = Py.Return [] ->
     HostCheckResult.error r = Some "No certificate received") /\
    (forall m,
       get_certificate_chain self_timeout fqdn port timeout
         = Py.Raise (Py.socket_timeout m) ->
       HostCheckResult.error r
         = Some ("Connection timeout after "
                   ++ str_of_Z (Py.or_int timeout self_timeout) ++ "s")%string) /\
    (forall m,
       get_certificate_chain self_timeout fqdn port timeout
         = Py.Raise (Py.socket_gaierror m) ->
       HostCheckResult.error r = Some ("DNS resolution failed: " ++ m)%string) /\
    (forall m,
       get_certificate_chain self_timeout fqdn port timeout
         = Py.Raise (Py.socket_error m) \/
       get_certificate_chain self_timeout fqdn port timeout
         = Py.Raise (Py.ssl_SSLError m) ->
       HostCheckResult.error r = Some ("Connection error: " ++ m)%string) /\
    (forall m,
       get_certificate_chain self_timeout fqdn port timeout
         = Py.Raise (Py.InvalidSignature m) \/
       get_certificate_chain self_timeout fqdn port timeout
         = Py.Raise (Py.UnsupportedAlgorithm m) \/
       get_certificate_chain self_timeout fqdn port timeout
         = Py.Raise (Py.Exception m) ->
       HostCheckResult.error r = Some ("Unexpected error: " ++ m)%string).
Proof.
  unfold check_host.
  destruct (get_certificate_chain self_timeout fqdn port timeout)
    as [[|cert rest]|[m|m|m|m|m|m|m]] eqn:F;
    cbn [Py.rbind Py.rtry Py.str]; eexists; (split; [reflexivity|]);
    cbn [error_result HostCheckResult.certificate HostCheckResult.expiration
         HostCheckResult.error HostCheckResult.status];
    (split; [first [ left; repeat split; eexists; split; [reflexivity|discriminate]
                   | right; repeat split; eexists; reflexivity ] |]);
    (split; [ intros NC;
              first [ exfalso; now apply (NC cert rest)
                    | repeat split; eexists; split; [reflexivity|discriminate] ] |]);
    repeat split; try discriminate;
    intros; repeat match goal with
                   | H : _ \/ _ |- _ => destruct H
                   end; congruence.
Qed.

Lemma check_host_never_raises_witness :
  exists r,
    check_host (H := Samples.no_dns) 0 10 "nowhere.invalid" 443 30 None None
      = Py.Return r /\
    HostCheckResult.status r = ERROR /\
    HostCheckResult.error r
      = Some "DNS resolution failed: [Errno -2] Name or service not known" /\
    HostCheckResult.certificate r = None /\
    HostCheckResult.expiration r = None.
Proof.
  destruct (check_host_never_raises (H := Samples.no_dns)
              0 10 "nowhere.invalid" 443 30 None None)
    as (r & E & _ & F & _ & _ & D & _).
  exists r. split; [exact E|].
  assert (NC : forall cert rest,
             get_certificate_chain (H := Samples.no_dns) 10 "nowhere.invalid" 443 None
               <> Py.Return (cert :: rest)) by (intros; discriminate).
  destruct (F NC) as (S & _ & C & X).
  split; [exact S|]. split; [|split; assumption].
  apply (D "[Errno -2] Name or service not known"). reflexivity.
Defined.

End RemoteSpec.

(* ================================================================== *)
(** * Properties of [validator.py] *)
(* ================================================================== *)

Module ValidatorSpec.
Import X509 PyStr Validator.

Section WithBackend.
Context `{CryptoBackend}.

Lemma Name_eqb_refl (n : Name) : Name_eqb n n = true.
Proof.
  induction n as [|a n IH]; simpl; [reflexivity|].
  unfold attr_eqb. now rewrite !String.eqb_refl, IH.
Qed.

(** [Name_eqb] decides equality of names. *)
Lemma Name_eqb_eq (n m : Name) : Name_eqb n m = true <-> n = m.
Proof.
  split; [|intros ->; apply Name_eqb_refl].
  revert m. induction n as [|[o v] n IH]; intros [|[o' v'] m]; simpl; try discriminate.
  - reflexivity.
  - unfold attr_eqb. simpl. rewrite !andb_true_iff, !String.eqb_eq.
    intros [[-> ->] E]. now rewrite (IH m E).
Qed.

(** A call of [verify_signature] returns, and is logged. *)
Lemma verify_signature_run (cert issuer_cert : Certificate) (t : list event) :
  verify_signature cert issuer_cert t
    = (Py.Return (signature_verifies cert issuer_cert),
       t ++ [VerifyCall cert issuer_cert]).
Proof.
  unfold verify_signature, signature_verifies, Py.bind, Py.log, Py.try_except, Py.lift.
  destruct (verify_signature_try cert issuer_cert) as [b|[]]; reflexivity.
Qed.

(** C8.  [verify_signature] returns a boolean for every pair of
    certificates, whatever the accessors and the backend raise.  With an
    RSA issuer key the answer is that of the backend's RSA check of the
    signature over the to-be-signed bytes with PKCS#1 v1.5 padding and
    the declared hash; with an elliptic-curve key that of the ECDSA check
    with the declared hash; with a DSA key that of the DSA check with the
    declared hash; with any other key, and whenever anything raises, the
    answer is false. *)
Theorem verify_signature_dispatch (cert issuer_cert : Certificate) (t : list event) :
  exists b,
    verify_signature cert issuer_cert t
      = (Py.Return b, t ++ [VerifyCall cert issuer_cert]) /\
    (forall key, public_key issuer_cert = Py.Return (RSAPublicKey key) ->
       (b = true <->
          exists hash,
            signature_hash_algorithm cert = Py.Return hash /\
            rsa_verify key (signature cert) (tbs_certificate_bytes cert)
              PKCS1v15 hash = Py.Return tt)) /\
    (forall key, public_key issuer_cert = Py.Return (EllipticCurvePublicKey key) ->
       (b = true <->
          exists hash,
            signature_hash_algorithm cert = Py.Return hash /\
            ec_verify key (signature cert) (tbs_certificate_bytes cert)
              (ECDSA hash) = Py.Return tt)) /\
    (forall key, public_key issuer_cert = Py.Return (DSAPublicKey key) ->
       (b = true <->
          exists hash,
            signature_hash_algorithm cert = Py.Return hash /\
            dsa_verify key (signature cert) (tbs_certificate_bytes cert)
              hash = Py.Return tt)) /\
    (forall key, public_key issuer_cert = Py.Return (OtherPublicKey key) ->
       b = false) /\
    (forall e, public_key issuer_cert = Py.Raise e -> b = false).
Proof.
  rewrite verify_signature_run. eexists. split; [reflexivity|].
  unfold signature_verifies, verify_signature_try.
  repeat apply conj; intros k PK; rewrite PK; cbn [Py.rbind]; try reflexivity.
  all: destruct (signature_hash_algorithm cert) as [hash|e]; cbn [Py.rbind].
  all: try (split; [discriminate | intros (hash' & E & _); discriminate]).
  all: match goal with
       | |- context [Py.rbind ?v _] => destruct v as [[]|e] eqn:V
       end; cbn [Py.rbind].
  all: split; try discriminate.
  all: try (intros _; exists hash; now split).
  all: intros (hash' & E & V'); injection E as <-; congruence.
Qed.

(** ** The three loops of [validate_chain] *)

(** One turn of the second loop. *)
Lemma linkage_loop_step (cert issuer_cert : Certificate) (rest : list Certificate)
    (i : nat) (msgs : list string) (t : list event) :
  linkage_loop i (cert :: issuer_cert :: rest) msgs t
  = if negb (Name_eqb (issuer cert) (subject issuer_cert)) then
      (Py.Return (inl (Build INVALID
         (msgs ++ [("Cert " ++ str_of_nat i
                      ++ ": Issuer does not match next cert in chain")%string])
         false)), t)
    else if negb (signature_verifies cert issuer_cert) then
      (Py.Return (inl (Build INVALID
         (msgs ++ [("Cert " ++ str_of_nat i
                      ++ ": Invalid signature from issuer")%string])
         false)), t ++ [VerifyCall cert issuer_cert])
    else
      linkage_loop (S i) (issuer_cert :: rest)
        (msgs ++ [("Cert " ++ str_of_nat i ++ ": Signature valid")%string])
        (t ++ [VerifyCall cert issuer_cert]).
Proof.
  cbn [linkage_loop].
  destruct (Name_eqb (issuer cert) (subject issuer_cert)); cbn [negb]; [|reflexivity].
  unfold Py.bind at 1. rewrite verify_signature_run.
  destruct (signature_verifies cert issuer_cert); reflexivity.
Qed.

Lemma linkage_loop_linked (cert issuer_cert : Certificate) (rest : list Certificate)
    (i : nat) (msgs : list string) (t : list event) :
  linked cert issuer_cert = true ->
  linkage_loop i (cert :: issuer_cert :: rest) msgs t
  = linkage_loop (S i) (issuer_cert :: rest)
      (msgs ++ [("Cert " ++ str_of_nat i ++ ": Signature valid")%string])
      (t ++ [VerifyCall cert issuer_cert]).
Proof.
  unfold linked. rewrite andb_true_iff. intros [N V].
  rewrite linkage_loop_step, N, V. reflexivity.
Qed.

(** Over a prefix of linked pairs the second loop appends one
    confirmation and logs one call per pair. *)
Lemma linkage_loop_prefix (pre : list Certificate) :
  forall (cert : Certificate) (rest : list Certificate)
         (i : nat) (msgs : list string) (t : list event),
    links_ok (pre ++ [cert]) = true ->
    linkage_loop i (pre ++ cert :: rest) msgs t
    = linkage_loop (i + length pre) (cert :: rest)
        (msgs ++ link_confirmations i (length pre))
        (t ++ link_calls (pre ++ [cert])).
Proof.
  induction pre as [|p pre IH]; intros cert rest i msgs t L.
  - simpl. now rewrite Nat.add_0_r, !app_nil_r.
  - destruct pre as [|q pre].
    + change (links_ok ([p] ++ [cert])) with (linked p cert && true) in L.
      rewrite andb_true_r in L.
      change ([p] ++ cert :: rest) with (p :: cert :: rest).
      rewrite (linkage_loop_linked _ _ _ _ _ _ L).
      cbn [app length link_confirmations link_calls].
      now rewrite Nat.add_1_r.
    + change (links_ok ((p :: q :: pre) ++ [cert]))
        with (linked p q && links_ok ((q :: pre) ++ [cert])) in L.
      apply andb_true_iff in L as [L1 L2].
      change ((p :: q :: pre) ++ cert :: rest)
        with (p :: q :: (pre ++ cert :: rest)).
      rewrite (linkage_loop_linked _ _ _ _ _ _ L1).
      change (q :: pre ++ cert :: rest) with ((q :: pre) ++ cert :: rest).
      rewrite (IH cert rest (S i) _ _ L2).
      change (link_calls ((p :: q :: pre) ++ [cert]))
        with (VerifyCall p q :: link_calls ((q :: pre) ++ [cert])).
      cbn [length link_confirmations].
      rewrite <- !app_assoc. cbn [app].
      f_equal. lia.
Qed.

(** A chain of linked pairs passes the second loop. *)
Lemma linkage_loop_ok (certs : list Certificate) :
  forall (i : nat) (msgs : list string) (t : list event),
    links_ok certs = true ->
    linkage_loop i certs msgs t
    = (Py.Return (inr (msgs ++ link_confirmations i (pred (length certs)))),
       t ++ link_calls certs).
Proof.
  induction certs as [|c certs IH]; intros i msgs t L.
  - simpl. now rewrite !app_nil_r.
  - destruct certs as [|d certs].
    + simpl. now rewrite !app_nil_r.
    + change (links_ok (c :: d :: certs))
        with (linked c d && links_ok (d :: certs)) in L.
      apply andb_true_iff in L as [L1 L2].
      rewrite (linkage_loop_linked _ _ _ _ _ _ L1), (IH _ _ _ L2).
      cbn [length pred link_confirmations link_calls].
      now rewrite <- !app_assoc.
Qed.

(** One turn of the first loop. *)
Lemma structural_loop_step (cert : Certificate) (rest : list Certificate)
    (i : nat) (msgs : list string) :
  structural_loop i (cert :: rest) msgs
  = if key_usage_fatal cert then
      inl (Build INVALID (msgs ++ structural_messages_of i cert) false)
    else structural_loop (S i) rest (msgs ++ structural_messages_of i cert).
Proof.
  cbn [structural_loop]. unfold key_usage_fatal, structural_messages_of.
  now rewrite <- !app_assoc.
Qed.

(** Over certificates on which it does not return, the first loop
    appends their messages. *)
Lemma structural_loop_prefix (pre : list Certificate) :
  forall (rest : list Certificate) (i : nat) (msgs : list string),
    Forall (fun c => key_usage_fatal c = false) pre ->
    structural_loop i (pre ++ rest) msgs
    = structural_loop (i + length pre) rest (msgs ++ structural_messages i pre).
Proof.
  induction pre as [|p pre IH]; intros rest i msgs F.
  - simpl. now rewrite Nat.add_0_r, app_nil_r.
  - inversion F as [|? ? Fp Fpre]; subst.
    change ((p :: pre) ++ rest) with (p :: (pre ++ rest)).
    rewrite structural_loop_step, Fp, (IH _ _ _ Fpre).
    cbn [length structural_messages].
    now rewrite <- app_assoc, Nat.add_succ_r.
Qed.

(** The loop over the trust store finds the first anchor that carries
    the subject of the root and verifies it, if there is one. *)
Lemma truststore_loop_run (root_cert : Certificate) (truststore : list Certificate) :
  forall (msgs : list string) (t : list event),
    truststore_loop root_cert truststore msgs t
    = (Py.Return
         (existsb (anchors root_cert) truststore,
          msgs ++ (if existsb (anchors root_cert) truststore
                   then ["Root certificate found in truststore"] else [])),
       t ++ trust_calls root_cert truststore).
Proof.
  induction truststore as [|a ts IH]; intros msgs t.
  - simpl. now rewrite !app_nil_r.
  - cbn [truststore_loop trust_calls existsb]. unfold anchors at 1 3.
    destruct (Name_eqb (subject root_cert) (subject a)); cbn [andb orb].
    + unfold Py.bind at 1. rewrite verify_signature_run.
      destruct (signature_verifies root_cert a); cbn [orb].
      * reflexivity.
      * rewrite IH, <- app_assoc. reflexivity.
    + apply IH.
Qed.

Lemma last_default {A} (l : list A) (d d' : A) : l <> [] -> last l d = last l d'.
Proof.
  induction l as [|a l IH]; [congruence|]. intros _.
  destruct l as [|b l]; [reflexivity|].
  change (last (b :: l) d = last (b :: l) d'). apply IH. discriminate.
Qed.

(** [validate_chain] once the first loop has run to its end. *)
Lemma validate_chain_structured (truststore cert_chain : list Certificate)
    (default : Certificate) (use_truststore : bool)
    (msgs0 : list string) (t : list event) :
  cert_chain <> [] ->
  structural_loop 0 cert_chain [] = inr msgs0 ->
  validate_chain truststore cert_chain use_truststore t
  = match linkage_loop 0 cert_chain msgs0 t with
    | (Py.Return (inl failure), t') => (Py.Return failure, t')
    | (Py.Return (inr msgs), t') =>
        if use_truststore && negb (Nat.eqb (length truststore) 0) then
          (Py.Return
             (if existsb (anchors (last cert_chain default)) truststore
              then Build VALID (msgs ++ ["Root certificate found in truststore"]) true
              else Build INVALID
                     (msgs ++ ["Root certificate not found in truststore"]) false),
           t' ++ trust_calls (last cert_chain default) truststore)
        else (Py.Return (Build VALID msgs true), t')
    | (Py.Raise e, t') => (Py.Raise e, t')
    end.
Proof.
  intros NE S. destruct cert_chain as [|first rest]; [congruence|].
  rewrite (last_default (first :: rest) default first NE).
  unfold validate_chain. rewrite S. unfold Py.bind at 1.
  destruct (linkage_loop 0 (first :: rest) msgs0 t) as [[[failure|msgs]|e] t'];
    try reflexivity.
  destruct (use_truststore && negb (Nat.eqb (length truststore) 0)); [|reflexivity].
  unfold Py.bind. rewrite truststore_loop_run.
  destruct (existsb (anchors (last (first :: rest) first)) truststore);
    cbn [negb]; unfold Py.ret; now rewrite ?app_nil_r.
Qed.

(** The calls of the loop over the trust store end with the first anchor
    that carries the subject and verifies. *)
Lemma trust_calls_first (root_cert : Certificate)
    (before : list Certificate) (a : Certificate) (after : list Certificate) :
  anchors root_cert a = true ->
  (forall b, In b before -> anchors root_cert b = false) ->
  trust_calls root_cert (before ++ a :: after)
  = trust_calls root_cert before ++ [VerifyCall root_cert a].
Proof.
  intros A. unfold anchors in A. apply andb_true_iff in A as [N V].
  induction before as [|b before IH]; intros NB.
  - simpl. now rewrite N, V.
  - assert (B : anchors root_cert b = false) by (apply NB; now left).
    assert (IH' := IH (fun c Hc => NB c (or_intror Hc))).
    unfold anchors in B. cbn [app trust_calls].
    destruct (Name_eqb (subject root_cert) (subject b)); cbn [andb] in B.
    + rewrite B, IH'. reflexivity.
    + exact IH'.
Qed.

(** Whatever the first loop returns is a failure. *)
Lemma structural_loop_failure (certs : list Certificate) :
  forall (i : nat) (msgs : list string) (r : ValidationResult),
    structural_loop i certs msgs = inl r ->
    status r = INVALID /\ is_valid r = false.
Proof.
  induction certs as [|c certs IH]; intros i msgs r; [discriminate|].
  rewrite structural_loop_step.
  destruct (key_usage_fatal c).
  - intros [= <-]. now split.
  - apply IH.
Qed.

(** The second loop ends, and whatever it returns is a failure. *)
Lemma linkage_loop_total (certs : list Certificate) :
  forall (i : nat) (msgs : list string) (t : list event),
  exists x t',
    linkage_loop i certs msgs t = (Py.Return x, t') /\
    (forall r, x = inl r -> status r = INVALID /\ is_valid r = false).
Proof.
  induction certs as [|c certs IH]; intros i msgs t.
  - do 2 eexists. split; [reflexivity | discriminate].
  - destruct certs as [|d certs].
    + do 2 eexists. split; [reflexivity | discriminate].
    + rewrite linkage_loop_step.
      destruct (negb (Name_eqb (issuer c) (subject d))).
      * do 2 eexists. split; [reflexivity|]. intros r [= <-]. now split.
      * destruct (negb (signature_verifies c d)).
        -- do 2 eexists. split; [reflexivity|]. intros r [= <-]. now split.
        -- apply IH.
Qed.

(** C3.  Once the first loop has passed, the second loop takes the pairs
    in index order.  At the first pair [(cert, issuer_cert)], of index
    [length pre], that is not linked:
    - if the issuer name differs from the subject of the next
      certificate, the result is INVALID and the verifier was called for
      the earlier pairs only;
    - if the names agree but the signature does not verify, the result is
      INVALID and the last verifier call is the one for this pair;
    in both cases the trail ends with the confirmations of the earlier
    pairs and the failure message, and no later pair is looked at.  A
    linked pair adds its confirmation and the loop goes on with the next
    pair; when every pair is linked all the confirmations are there. *)
Theorem linkage_pass_short_circuit (truststore pre : list Certificate)
    (cert issuer_cert : Certificate) (post : list Certificate)
    (use_truststore : bool) (msgs0 : list string) (t : list event) :
  structural_loop 0 (pre ++ cert :: issuer_cert :: post) [] = inr msgs0 ->
  links_ok (pre ++ [cert]) = true ->
  (Name_eqb (issuer cert) (subject issuer_cert) = false ->
   validate_chain truststore (pre ++ cert :: issuer_cert :: post) use_truststore t
   = (Py.Return (Build INVALID
        (msgs0 ++ link_confirmations 0 (length pre)
           ++ [("Cert " ++ str_of_nat (length pre)
                  ++ ": Issuer does not match next cert in chain")%string])
        false),
      t ++ link_calls (pre ++ [cert]))) /\
  (Name_eqb (issuer cert) (subject issuer_cert) = true ->
   signature_verifies cert issuer_cert = false ->
   validate_chain truststore (pre ++ cert :: issuer_cert :: post) use_truststore t
   = (Py.Return (Build INVALID
        (msgs0 ++ link_confirmations 0 (length pre)
           ++ [("Cert " ++ str_of_nat (length pre)
                  ++ ": Invalid signature from issuer")%string])
        false),
      t ++ link_calls (pre ++ [cert]) ++ [VerifyCall cert issuer_cert])) /\
  (linked cert issuer_cert = true ->
   linkage_loop 0 (pre ++ cert :: issuer_cert :: post) msgs0 t
   = linkage_loop (S (length pre)) (issuer_cert :: post)
       (msgs0 ++ link_confirmations 0 (length pre)
          ++ [("Cert " ++ str_of_nat (length pre) ++ ": Signature valid")%string])
       (t ++ link_calls (pre ++ [cert]) ++ [VerifyCall cert issuer_cert])) /\
  (links_ok (pre ++ cert :: issuer_cert :: post) = true ->
   linkage_loop 0 (pre ++ cert :: issuer_cert :: post) msgs0 t
   = (Py.Return (inr (msgs0 ++ link_confirmations 0 (length pre + 1 + length post))),
      t ++ link_calls (pre ++ cert :: issuer_cert :: post))).
Proof.
  intros HS L.
  assert (NE : pre ++ cert :: issuer_cert :: post <> []) by (now destruct pre).
  assert (P := linkage_loop_prefix pre cert (issuer_cert :: post) 0 msgs0 t L).
  rewrite linkage_loop_step in P. cbn [Nat.add] in P.
  rewrite (validate_chain_structured truststore _ cert use_truststore msgs0 t NE HS).
  repeat apply conj.
  - intros N. rewrite P, N. cbn [negb]. now rewrite <- app_assoc.
  - intros N V. rewrite P, N, V. cbn [negb]. now rewrite <- !app_assoc.
  - unfold linked. rewrite andb_true_iff. intros [N V].
    rewrite P, N, V. cbn [negb]. now rewrite <- !app_assoc.
  - intros LL. rewrite (linkage_loop_ok _ 0 msgs0 t LL).
    rewrite length_app. cbn [length].
    replace (pred (length pre + S (S (length post))))
      with (length pre + 1 + length post) by lia.
    reflexivity.
Qed.

Lemma structural_messages_app (pre rest : list Certificate) :
  forall i,
    structural_messages i (pre ++ rest)
    = structural_messages i pre ++ structural_messages (i + length pre) rest.
Proof.
  induction pre as [|p pre IH]; intros i.
  - simpl. now rewrite Nat.add_0_r.
  - cbn [app structural_messages length].
    now rewrite IH, <- app_assoc, Nat.add_succ_r.
Qed.

(** The first loop runs to its end when no certificate is fatal. *)
Lemma structural_loop_ok (certs : list Certificate) (i : nat) (msgs : list string) :
  Forall (fun c => key_usage_fatal c = false) certs ->
  structural_loop i certs msgs = inr (msgs ++ structural_messages i certs).
Proof.
  intros F. rewrite <- (app_nil_r certs) at 1.
  now rewrite (structural_loop_prefix certs [] i msgs F).
Qed.

Lemma key_usage_fatal_iff (cert : Certificate) :
  key_usage_fatal cert = true <->
  exists bc ku,
    basic_constraints cert = Some bc /\ key_usage cert = Some ku /\
    ca bc = true /\ key_cert_sign ku = false.
Proof.
  unfold key_usage_fatal, check_key_usage.
  destruct (key_usage cert) as [ku|]; [destruct (basic_constraints cert) as [bc|]|].
  - destruct (ca bc) eqn:C, (key_cert_sign ku) eqn:K; cbn; split;
      try discriminate;
      try (intros (bc' & ku' & [= <-] & [= <-] & C' & K'); congruence).
    intros _. now exists bc, ku.
  - cbn. split; [discriminate | intros (bc & ku' & E & _); discriminate].
  - cbn. split; [discriminate | intros (bc & ku' & _ & E & _); discriminate].
Qed.

Lemma key_usage_fatal_result (cert : Certificate) :
  key_usage_fatal cert = true ->
  check_key_usage cert
  = Build INVALID ["CA certificate missing key_cert_sign usage"] false.
Proof.
  unfold key_usage_fatal, check_key_usage.
  destruct (key_usage cert) as [ku|]; [destruct (basic_constraints cert) as [bc|]|];
    try discriminate.
  destruct (ca bc && negb (key_cert_sign ku)); [reflexivity | discriminate].
Qed.

(** C5.  In the first loop a certificate that basic constraints mark as
    a CA and whose key usage is present without keyCertSign makes
    [validate_chain] return INVALID at once, the trail holding the
    messages of the certificates before it, its own basic-constraints
    messages and the failure.  A certificate without key usage or
    without basic constraints only gets a WARNING from the sub-check, its
    message is in the trail and the loop goes on; a chain with such
    certificates that passes the later checks is VALID. *)
Theorem structural_pass (truststore pre : list Certificate) (cert : Certificate)
    (post : list Certificate) (use_truststore : bool) (t : list event) :
  (key_usage_fatal cert = true <->
     exists bc ku,
       basic_constraints cert = Some bc /\ key_usage cert = Some ku /\
       ca bc = true /\ key_cert_sign ku = false) /\
  (Forall (fun c => key_usage_fatal c = false) pre ->
   key_usage_fatal cert = true ->
   validate_chain truststore (pre ++ cert :: post) use_truststore t
   = (Py.Return (Build INVALID
        (structural_messages 0 pre
           ++ tagged (length pre) (messages (check_basic_constraints cert))
           ++ [("Cert " ++ str_of_nat (length pre)
                  ++ ": CA certificate missing key_cert_sign usage")%string])
        false),
      t)) /\
  (key_usage cert = None ->
   check_key_usage cert = Build WARNING ["Key usage extension not found"] true /\
   key_usage_fatal cert = false /\
   In ("Cert " ++ str_of_nat (length pre) ++ ": Key usage extension not found")%string
      (structural_messages_of (length pre) cert)) /\
  (basic_constraints cert = None ->
   check_basic_constraints cert
     = Build WARNING ["Basic constraints extension not found"] true /\
   key_usage_fatal cert = false /\
   In ("Cert " ++ str_of_nat (length pre)
         ++ ": Basic constraints extension not found")%string
      (structural_messages_of (length pre) cert)) /\
  (Forall (fun c => key_usage_fatal c = false) pre ->
   key_usage_fatal cert = false ->
   structural_loop 0 (pre ++ cert :: post) []
   = structural_loop (S (length pre)) post
       (structural_messages 0 pre ++ structural_messages_of (length pre) cert)) /\
  (Forall (fun c => key_usage_fatal c = false) (pre ++ cert :: post) ->
   links_ok (pre ++ cert :: post) = true ->
   use_truststore = false \/ truststore = [] \/
     existsb (anchors (last (pre ++ cert :: post) cert)) truststore = true ->
   exists r t',
     validate_chain truststore (pre ++ cert :: post) use_truststore t
       = (Py.Return r, t') /\
     status r = VALID /\ is_valid r = true /\
     exists later,
       messages r
       = structural_messages 0 pre ++ structural_messages_of (length pre) cert
           ++ structural_messages (S (length pre)) post ++ later).
Proof.
  assert (NE : pre ++ cert :: post <> []) by (now destruct pre).
  repeat apply conj.
  - apply key_usage_fatal_iff.
  - apply key_usage_fatal_iff.
  - intros F K.
    destruct pre as [|p pre'] eqn:Epre.
    + unfold validate_chain. cbn [app].
      rewrite structural_loop_step, K. unfold structural_messages_of.
      now rewrite (key_usage_fatal_result cert K).
    + rewrite <- Epre in *. clear Epre.
      assert (V : validate_chain truststore (pre ++ cert :: post) use_truststore t
                  = match structural_loop 0 (pre ++ cert :: post) [] with
                    | inl failure => (Py.Return failure, t)
                    | inr _ => validate_chain truststore (pre ++ cert :: post)
                                 use_truststore t
                    end).
      { unfold validate_chain.
        destruct (pre ++ cert :: post) as [|first rest]; [congruence|].
        now destruct (structural_loop 0 (first :: rest) []). }
      rewrite V, (structural_loop_prefix pre (cert :: post) 0 [] F).
      rewrite structural_loop_step, K. unfold structural_messages_of.
      now rewrite (key_usage_fatal_result cert K).
  - intros KU. unfold key_usage_fatal, structural_messages_of, check_key_usage.
    rewrite KU. repeat split. apply in_or_app. right. now left.
  - intros BC. unfold key_usage_fatal, structural_messages_of,
      check_basic_constraints, check_key_usage.
    rewrite BC. repeat split.
    + now destruct (key_usage cert).
    + apply in_or_app. left. now left.
  - intros F K.
    rewrite (structural_loop_prefix pre (cert :: post) 0 [] F).
    now rewrite structural_loop_step, K.
  - intros F L T.
    rewrite (validate_chain_structured truststore _ cert use_truststore _ t NE
               (structural_loop_ok _ 0 [] F)).
    rewrite (linkage_loop_ok _ 0 _ t L).
    rewrite structural_messages_app. cbn [app Nat.add structural_messages].
    destruct (use_truststore && negb (Nat.eqb (length truststore) 0)) eqn:U.
    + assert (A : existsb (anchors (last (pre ++ cert :: post) cert)) truststore
                  = true).
      { destruct T as [->|[->|A]]; [discriminate| |exact A].
        now rewrite andb_false_r in U. }
      rewrite A. do 2 eexists. split; [reflexivity|].
      cbn [status is_valid messages]. repeat split.
      eexists. rewrite <- !app_assoc. reflexivity.
    + do 2 eexists. split; [reflexivity|].
      cbn [status is_valid messages]. repeat split.
      eexists. rewrite <- !app_assoc. reflexivity.
Qed.

(** C2 (as amended).  For a non-empty chain that passes the first two
    loops, with a non-empty trust store and [use_truststore] set, the
    last certificate of the chain is looked up in the trust store.  If
    some anchor carries its subject and verifies its signature the result
    is VALID, and the loop stops at the first such anchor; an anchor that
    only carries the subject does not count.  If no anchor does both, the
    result is INVALID and the trail ends with
    ["Root certificate not found in truststore"].  Whether the last
    certificate is self-signed plays no part. *)
Theorem trust_anchor_pass (truststore cert_chain : list Certificate)
    (default : Certificate) (msgs0 : list string) (t : list event) :
  cert_chain <> [] ->
  truststore <> [] ->
  structural_loop 0 cert_chain [] = inr msgs0 ->
  links_ok cert_chain = true ->
  exists r,
    validate_chain truststore cert_chain true t
      = (Py.Return r,
         t ++ link_calls cert_chain
           ++ trust_calls (last cert_chain default) truststore) /\
    ((exists a, In a truststore /\
                subject (last cert_chain default) = subject a /\
                signature_verifies (last cert_chain default) a = true) ->
     r = Build VALID
           (msgs0 ++ link_confirmations 0 (pred (length cert_chain))
              ++ ["Root certificate found in truststore"])
           true) /\
    (forall before a after,
       truststore = before ++ a :: after ->
       subject (last cert_chain default) = subject a ->
       signature_verifies (last cert_chain default) a = true ->
       (forall b, In b before ->
                  subject (last cert_chain default) = subject b ->
                  signature_verifies (last cert_chain default) b = false) ->
       trust_calls (last cert_chain default) truststore
       = trust_calls (last cert_chain default) before
           ++ [VerifyCall (last cert_chain default) a]) /\
    ((forall a, In a truststore ->
                subject (last cert_chain default) = subject a ->
                signature_verifies (last cert_chain default) a = false) ->
     r = Build INVALID
           (msgs0 ++ link_confirmations 0 (pred (length cert_chain))
              ++ ["Root certificate not found in truststore"])
           false).
Proof.
  intros NE NT HS L.
  rewrite (validate_chain_structured truststore _ default true msgs0 t NE HS).
  rewrite (linkage_loop_ok _ 0 msgs0 t L).
  assert (U : true && negb (Nat.eqb (length truststore) 0) = true)
    by (destruct truststore; [congruence | reflexivity]).
  rewrite U. eexists. split; [now rewrite <- (app_assoc t)|].
  set (root_cert := last cert_chain default).
  repeat apply conj.
  - intros (a & I & N & V).
    assert (A : existsb (anchors root_cert) truststore = true).
    { apply existsb_exists. exists a. split; [exact I|].
      unfold anchors. now rewrite (proj2 (Name_eqb_eq _ _) N), V. }
    rewrite A. now rewrite <- app_assoc.
  - intros before a after -> N V B.
    apply trust_calls_first.
    + unfold anchors. now rewrite (proj2 (Name_eqb_eq _ _) N), V.
    + intros b I. unfold anchors.
      destruct (Name_eqb (subject root_cert) (subject b)) eqn:Nb; [|reflexivity].
      cbn [andb]. apply (B b I). now apply Name_eqb_eq.
  - intros NA.
    assert (A : existsb (anchors root_cert) truststore = false).
    { destruct (existsb (anchors root_cert) truststore) eqn:E; [|reflexivity].
      apply existsb_exists in E as (a & I & A). unfold anchors in A.
      apply andb_true_iff in A as [N V].
      rewrite (NA a I (proj1 (Name_eqb_eq _ _) N)) in V. discriminate. }
    rewrite A. now rewrite <- app_assoc.
Qed.

Lemma validate_single_run (cert : Certificate) (t : list event) :
  exists r t',
    validate_single cert t = (Py.Return r, t') /\
    (status r = VALID /\ is_valid r = true \/
     status r = INVALID /\ is_valid r = false).
Proof.
  unfold validate_single.
  destruct (negb (is_valid (check_key_usage cert))).
  - do 2 eexists. split; [reflexivity|]. now right.
  - destruct (Name_eqb (subject cert) (issuer cert)).
    + unfold Py.bind. rewrite verify_signature_run.
      destruct (signature_verifies cert cert); do 2 eexists;
        (split; [reflexivity|]); [now left | now right].
    + do 2 eexists. split; [reflexivity|]. now left.
Qed.

Lemma validate_chain_run (truststore cert_chain : list Certificate)
    (use_truststore : bool) (t : list event) :
  exists r t',
    validate_chain truststore cert_chain use_truststore t = (Py.Return r, t') /\
    (status r = VALID /\ is_valid r = true \/
     status r = INVALID /\ is_valid r = false).
Proof.
  destruct cert_chain as [|first rest].
  - do 2 eexists. split; [reflexivity|]. now right.
  - destruct (structural_loop 0 (first :: rest) []) as [failure|msgs0] eqn:HS.
    + unfold validate_chain. rewrite HS.
      do 2 eexists. split; [reflexivity|]. right.
      exact (structural_loop_failure _ _ _ _ HS).
    + assert (NE : first :: rest <> []) by discriminate.
      rewrite (validate_chain_structured truststore _ first use_truststore msgs0 t
                 NE HS).
      destruct (linkage_loop_total (first :: rest) 0 msgs0 t) as (x & t' & E & W).
      rewrite E. destruct x as [failure|msgs].
      * do 2 eexists. split; [reflexivity|]. right. now apply W.
      * destruct (use_truststore && negb (Nat.eqb (length truststore) 0)).
        -- destruct (existsb (anchors (last (first :: rest) first)) truststore);
             do 2 eexists; (split; [reflexivity|]); [now left | now right].
        -- do 2 eexists. split; [reflexivity|]. now left.
Qed.

(** C10.  [validate_chain] and [validate_single] return for every input,
    with a status that is VALID or INVALID and never WARNING, and with
    [is_valid] true exactly when the status is VALID. *)
Theorem validation_status_two_valued (truststore cert_chain : list Certificate)
    (use_truststore : bool) (cert : Certificate) (t : list event) :
  (exists r t',
     validate_chain truststore cert_chain use_truststore t = (Py.Return r, t') /\
     (status r = VALID \/ status r = INVALID) /\
     status r <> WARNING /\
     (is_valid r = true <-> status r = VALID)) /\
  (exists r t',
     validate_single cert t = (Py.Return r, t') /\
     (status r = VALID \/ status r = INVALID) /\
     status r <> WARNING /\
     (is_valid r = true <-> status r = VALID)).
Proof.
  split.
  - destruct (validate_chain_run truststore cert_chain use_truststore t)
      as (r & t' & E & [[S V]|[S V]]);
      exists r, t'; rewrite S, V; repeat split; auto; discriminate.
  - destruct (validate_single_run cert t) as (r & t' & E & [[S V]|[S V]]);
      exists r, t'; rewrite S, V; repeat split; auto; discriminate.
Qed.

End WithBackend.

Lemma verify_signature_dispatch_witness :
  exists b,
    verify_signature (H := Samples.toy_backend) Samples.intermediate Samples.root []
      = (Py.Return b, [VerifyCall Samples.intermediate Samples.root]) /\
    b = true.
Proof.
  destruct (verify_signature_dispatch (H := Samples.toy_backend)
              Samples.intermediate Samples.root [])
    as (b & E & R & _).
  exists b. split; [exact E|].
  apply (R "root-key" eq_refl).
  exists (Some SHA256). split; reflexivity.
Defined.

Lemma linkage_pass_short_circuit_witness :
  validate_chain (H := Samples.toy_backend) [Samples.root]
    [Samples.leaf; Samples.forged_intermediate; Samples.root] true []
  = (Py.Return (Build INVALID
       ["Cert 0: Basic constraints extension not found";
        "Cert 0: Key usage extension not found";
        "Cert 1: Certificate is a CA certificate";
        "Cert 1: Key usage valid";
        "Cert 2: Certificate is a CA certificate";
        "Cert 2: Key usage valid";
        "Cert 0: Signature valid";
        "Cert 1: Invalid signature from issuer"]
       false),
     [VerifyCall Samples.leaf Samples.forged_intermediate;
      VerifyCall Samples.forged_intermediate Samples.root]).
Proof.
  exact (proj1 (proj2
           (linkage_pass_short_circuit (H := Samples.toy_backend)
              [Samples.root] [Samples.leaf] Samples.forged_intermediate
              Samples.root [] true
              (structural_messages 0
                 [Samples.leaf; Samples.forged_intermediate; Samples.root])
              [] eq_refl eq_refl))
           eq_refl eq_refl).
Defined.

(** Scenario 4 of the specification: the leaf names an issuer that is
    not the next certificate; no signature is checked. *)
Example issuer_mismatch_at_leaf :
  validate_chain (H := Samples.toy_backend) [Samples.root]
    [Samples.stray_leaf; Samples.intermediate; Samples.root] true []
  = (Py.Return (Build INVALID
       ["Cert 0: Basic constraints extension not found";
        "Cert 0: Key usage extension not found";
        "Cert 1: Certificate is a CA certificate";
        "Cert 1: Key usage valid";
        "Cert 2: Certificate is a CA certificate";
        "Cert 2: Key usage valid";
        "Cert 0: Issuer does not match next cert in chain"]
       false),
     []).
Proof. reflexivity. Qed.

Lemma structural_pass_witness :
  validate_chain (H := Samples.toy_backend) [Samples.root]
    [Samples.leaf; Samples.weak_ca; Samples.root] true []
  = (Py.Return (Build INVALID
       ["Cert 0: Basic constraints extension not found";
        "Cert 0: Key usage extension not found";
        "Cert 1: Certificate is a CA certificate";
        "Cert 1: CA certificate missing key_cert_sign usage"]
       false),
     []) /\
  (exists r t',
     validate_chain (H := Samples.toy_backend) [Samples.root]
       [Samples.leaf; Samples.intermediate; Samples.root] true []
     = (Py.Return r, t') /\
     status r = VALID /\
     In "Cert 0: Basic constraints extension not found" (messages r) /\
     In "Cert 0: Key usage extension not found" (messages r)).
Proof.
  split.
  - apply (proj1 (proj2
             (structural_pass (H := Samples.toy_backend) [Samples.root]
                [Samples.leaf] Samples.weak_ca [Samples.root] true []))).
    + repeat constructor.
    + reflexivity.
  - destruct (proj2 (proj2 (proj2 (proj2 (proj2
                (structural_pass (H := Samples.toy_backend) [Samples.root]
                   [] Samples.leaf [Samples.intermediate; Samples.root] true [])))))
             ltac:(repeat constructor) eq_refl (or_intror (or_intror eq_refl)))
      as (r & t' & E & V & _ & later & M).
    exists r, t'. split; [exact E|]. split; [exact V|].
    rewrite M. split; [left; reflexivity | right; left; reflexivity].
Defined.

Lemma trust_anchor_pass_witness :
  validate_chain (H := Samples.toy_backend) [Samples.impostor]
    [Samples.leaf; Samples.intermediate; Samples.root] true []
  = (Py.Return (Build INVALID
       ["Cert 0: Basic constraints extension not found";
        "Cert 0: Key usage extension not found";
        "Cert 1: Certificate is a CA certificate";
        "Cert 1: Key usage valid";
        "Cert 2: Certificate is a CA certificate";
        "Cert 2: Key usage valid";
        "Cert 0: Signature valid";
        "Cert 1: Signature valid";
        "Root certificate not found in truststore"]
       false),
     [VerifyCall Samples.leaf Samples.intermediate;
      VerifyCall Samples.intermediate Samples.root;
      VerifyCall Samples.root Samples.impostor]) /\
  validate_chain (H := Samples.toy_backend) [Samples.impostor; Samples.root]
    [Samples.leaf; Samples.intermediate; Samples.cross_root] true []
  = (Py.Return (Build VALID
       ["Cert 0: Basic constraints extension not found";
        "Cert 0: Key usage extension not found";
        "Cert 1: Certificate is a CA certificate";
        "Cert 1: Key usage valid";
        "Cert 2: Certificate is a CA certificate";
        "Cert 2: Key usage valid";
        "Cert 0: Signature valid";
        "Cert 1: Signature valid";
        "Root certificate found in truststore"]
       true),
     [VerifyCall Samples.leaf Samples.intermediate;
      VerifyCall Samples.intermediate Samples.cross_root;
      VerifyCall Samples.cross_root Samples.impostor;
      VerifyCall Samples.cross_root Samples.root]).
Proof.
  split.
  - destruct (trust_anchor_pass (H := Samples.toy_backend) [Samples.impostor]
                [Samples.leaf; Samples.intermediate; Samples.root] Samples.leaf
                (structural_messages 0
                   [Samples.leaf; Samples.intermediate; Samples.root])
                [] ltac:(discriminate) ltac:(discriminate) eq_refl eq_refl)
      as (r & E & _ & _ & N).
    rewrite E, N; [reflexivity|].
    intros a [<-|[]] _. reflexivity.
  - destruct (trust_anchor_pass (H := Samples.toy_backend)
                [Samples.impostor; Samples.root]
                [Samples.leaf; Samples.intermediate; Samples.cross_root] Samples.leaf
                (structural_messages 0
                   [Samples.leaf; Samples.intermediate; Samples.cross_root])
                [] ltac:(discriminate) ltac:(discriminate) eq_refl eq_refl)
      as (r & E & F & _ & _).
    rewrite E, F; [reflexivity|].
    exists Samples.root. split; [right; left; reflexivity|]. split; reflexivity.
Defined.

(** C2 as stated fails on the text of the message: the trail of a chain
    that is not anchored does not hold
    ["root certificate not found in truststore."]. *)
Lemma trust_anchor_message_text :
  exists r t',
    validate_chain (H := Samples.toy_backend) [Samples.impostor]
      [Samples.leaf; Samples.intermediate; Samples.root] true []
    = (Py.Return r, t') /\
    status r = INVALID /\
    ~ In "root certificate not found in truststore." (messages r).
Proof.
  do 2 eexists. split; [cbv; reflexivity|]. split; [reflexivity|].
  cbn. intros D. repeat (destruct D as [D|D]; [discriminate D|]). exact D.
Qed.

(** The root of a chain need not be self-signed to be anchored. *)
Example cross_signed_root_not_self_signed :
  Name_eqb (subject Samples.cross_root) (issuer Samples.cross_root) = false.
Proof. reflexivity. Qed.

(** A single self-signed certificate, and one whose signature is broken. *)
Example validate_single_root :
  validate_single (H := Samples.toy_backend) Samples.root []
  = (Py.Return (Build VALID
       ["Certificate is a CA certificate"; "Key usage valid";
        "Self-signed certificate with valid signature"] true),
     [VerifyCall Samples.root Samples.root]).
Proof. reflexivity. Qed.

Example validate_single_leaf_warnings :
  validate_single (H := Samples.toy_backend) Samples.leaf []
  = (Py.Return (Build VALID
       ["Basic constraints extension not found";
        "Key usage extension not found"] true),
     []).
Proof. reflexivity. Qed.

End ValidatorSpec.

(* ================================================================== *)
(** * Further properties of [remote.py] *)
(* ================================================================== *)

Module RemoteFacts.
Import X509 PyStr PyStrFacts Remote.
Local Open Scope Z_scope.

Lemma days_positive : 0 < MICROSECONDS_PER_DAY.
Proof. reflexivity. Qed.

(** As time passes the status only moves from VALID to WARNING to
    EXPIRED, never back. *)
Theorem check_expiration_monotone (now now' : Z) (cert : Certificate)
    (warning_days : Z) :
  now <= now' ->
  (ExpirationInfo.status (check_expiration now cert warning_days) = EXPIRED ->
   ExpirationInfo.status (check_expiration now' cert warning_days) = EXPIRED) /\
  (ExpirationInfo.status (check_expiration now cert warning_days) = WARNING ->
   ExpirationInfo.status (check_expiration now' cert warning_days) <> VALID) /\
  ExpirationInfo.days_remaining (check_expiration now' cert warning_days)
    <= ExpirationInfo.days_remaining (check_expiration now cert warning_days).
Proof.
  intros L.
  assert (D : (not_valid_after_utc cert - now') / MICROSECONDS_PER_DAY
              <= (not_valid_after_utc cert - now) / MICROSECONDS_PER_DAY)
    by (apply Z.div_le_mono; [apply days_positive | lia]).
  unfold check_expiration, CertificateParser.get_validity_period, timedelta_days.
  cbn [ExpirationInfo.status ExpirationInfo.days_remaining].
  destruct (Z.gtb_spec now (not_valid_after_utc cert)) as [G|G];
    destruct (Z.gtb_spec now' (not_valid_after_utc cert)) as [G'|G'];
    cbn [negb andb]; try lia;
    repeat split; try discriminate; try congruence; try exact D.
  all: destruct (Z.ltb_spec ((not_valid_after_utc cert - now) / MICROSECONDS_PER_DAY)
                            warning_days) as [W|W];
    destruct (Z.ltb_spec ((not_valid_after_utc cert - now') / MICROSECONDS_PER_DAY)
                         warning_days) as [W'|W'];
    try discriminate; try lia.
Qed.

Lemma check_expiration_monotone_witness :
  ExpirationInfo.status
    (check_expiration (2000000000000000 - 10 * MICROSECONDS_PER_DAY) Samples.leaf 30)
    = WARNING /\
  ExpirationInfo.status
    (check_expiration (2000000000000000 - 1 * MICROSECONDS_PER_DAY) Samples.leaf 30)
    <> VALID.
Proof.
  split; [reflexivity|].
  apply (proj1 (proj2 (check_expiration_monotone
                         (2000000000000000 - 10 * MICROSECONDS_PER_DAY)
                         (2000000000000000 - 1 * MICROSECONDS_PER_DAY)
                         Samples.leaf 30 ltac:(vm_compute; discriminate)))).
  reflexivity.
Defined.

(** [days_remaining] is the number of whole days left: the time to
    [not_after] lies between [days_remaining] days and one day more.  It is
    therefore non-negative while the certificate has not expired. *)
Theorem days_remaining_bounds (now : Z) (cert : Certificate) (warning_days : Z) :
  ExpirationInfo.days_remaining (check_expiration now cert warning_days)
    * MICROSECONDS_PER_DAY <= not_valid_after_utc cert - now /\
  not_valid_after_utc cert - now
    < (ExpirationInfo.days_remaining (check_expiration now cert warning_days) + 1)
      * MICROSECONDS_PER_DAY /\
  (ExpirationInfo.is_expired (check_expiration now cert warning_days) = false ->
   0 <= ExpirationInfo.days_remaining (check_expiration now cert warning_days)).
Proof.
  unfold check_expiration, CertificateParser.get_validity_period, timedelta_days.
  cbn [ExpirationInfo.days_remaining ExpirationInfo.is_expired].
  pose proof days_positive as P.
  pose proof (Z.div_mod (not_valid_after_utc cert - now) MICROSECONDS_PER_DAY
                ltac:(lia)) as E.
  pose proof (Z.mod_pos_bound (not_valid_after_utc cert - now) MICROSECONDS_PER_DAY P)
    as B.
  split; [nia|]. split; [nia|].
  intros NX. apply Z.div_pos; [|exact P].
  destruct (Z.gtb_spec now (not_valid_after_utc cert)); [discriminate | lia].
Qed.

Lemma days_remaining_bounds_witness :
  0 <= ExpirationInfo.days_remaining (check_expiration 0 Samples.leaf 30).
Proof.
  apply (proj2 (proj2 (days_remaining_bounds 0 Samples.leaf 30))). reflexivity.
Defined.

(** With a threshold of zero or less no certificate is ever in WARNING. *)
Theorem no_warning_without_threshold (now : Z) (cert : Certificate)
    (warning_days : Z) :
  warning_days <= 0 ->
  ExpirationInfo.status (check_expiration now cert warning_days) <> WARNING /\
  ExpirationInfo.is_warning (check_expiration now cert warning_days) = false.
Proof.
  intros W.
  pose proof (proj2 (proj2 (days_remaining_bounds now cert warning_days))) as NN.
  revert NN.
  unfold check_expiration, CertificateParser.get_validity_period, timedelta_days.
  cbn [ExpirationInfo.status ExpirationInfo.days_remaining
       ExpirationInfo.is_expired ExpirationInfo.is_warning].
  destruct (now >? not_valid_after_utc cert); cbn [negb andb]; intros NN;
    [split; [discriminate | reflexivity]|].
  specialize (NN eq_refl).
  destruct (Z.ltb_spec ((not_valid_after_utc cert - now) / MICROSECONDS_PER_DAY)
                       warning_days); [lia|].
  split; [discriminate | reflexivity].
Qed.

Lemma no_warning_without_threshold_witness :
  ExpirationInfo.status
    (check_expiration (2000000000000000 - 1) Samples.leaf 0) <> WARNING.
Proof.
  apply (no_warning_without_threshold (2000000000000000 - 1) Samples.leaf 0).
  lia.
Defined.

Lemma existsb_ext_eq {A} (f g : A -> bool) (l : list A) :
  (forall x, f x = g x) -> existsb f l = existsb g l.
Proof. intros E. induction l as [|a l IH]; simpl; [reflexivity|]. now rewrite E, IH. Qed.

Lemma in_dns_values (v : string) (names : list GeneralName) :
  In v (CertificateParser.get_values_for_type_DNSName names) <-> In (DNSName v) names.
Proof.
  unfold CertificateParser.get_values_for_type_DNSName. rewrite in_flat_map. split.
  - intros ([w|w|w] & I & M); simpl in M; try contradiction.
    destruct M as [<-|[]]. exact I.
  - intros I. exists (DNSName v). split; [exact I | now left].
Qed.

(** [verify_hostname] accepts exactly when the common name of the subject
    is non-empty and matches, or some DNS entry of the subject alternative
    names matches; entries of other kinds (IP addresses) play no part. *)
Theorem verify_hostname_iff (cert : Certificate) (fqdn : string) :
  verify_hostname cert fqdn = true <->
  (exists cn, CertificateParser.get_subject_cn cert = Some cn /\ cn <> "" /\
              _match_hostname cn fqdn = true) \/
  (exists san_ext v, subject_alternative_name cert = Some san_ext /\
                     In (DNSName v) san_ext /\ _match_hostname v fqdn = true).
Proof.
  unfold verify_hostname.
  assert (S : existsb (fun san => _match_hostname san fqdn) (CertificateParser.get_san cert)
              = true <->
              exists san_ext v, subject_alternative_name cert = Some san_ext /\
                                In (DNSName v) san_ext /\ _match_hostname v fqdn = true).
  { rewrite existsb_exists. unfold CertificateParser.get_san.
    destruct (subject_alternative_name cert) as [ext|].
    - split.
      + intros (v & I & M). exists ext, v. now rewrite <- in_dns_values.
      + intros (ext' & v & [= <-] & I & M). exists v. now rewrite in_dns_values.
    - split; [intros (v & [] & _) | intros (ext' & v & E & _); discriminate]. }
  destruct (CertificateParser.get_subject_cn cert) as [[|c cn]|].
  - cbn [truthy andb]. rewrite S. split; [now right|].
    intros [(cn & [= <-] & NE & _)|R]; [congruence | exact R].
  - cbn [truthy andb].
    destruct (_match_hostname (String c cn) fqdn) eqn:M.
    + split; [|reflexivity]. intros _. left. exists (String c cn).
      repeat split; [discriminate | exact M].
    + rewrite S. split; [now right|].
      intros [(cn' & [= <-] & _ & M')|R]; [congruence | exact R].
  - rewrite S. split; [now right|].
    intros [(cn & E & _)|R]; [discriminate | exact R].
Qed.

Lemma verify_hostname_iff_witness :
  verify_hostname Samples.leaf "www.example.com" = true.
Proof.
  apply (proj2 (verify_hostname_iff Samples.leaf "www.example.com")).
  right. exists [DNSName "*.example.com"; IPAddress "10.0.0.1"], "*.example.com".
  split; [reflexivity|]. split; [now left | reflexivity].
Defined.

(** The answer of [verify_hostname] depends on the lower-cased host name
    only: two host names with the same lower-case form get the same answer
    for every certificate, and lower-casing the host name changes
    nothing. *)
Theorem verify_hostname_case_insensitive (cert : Certificate) (fqdn : string) :
  (forall fqdn', lower fqdn' = lower fqdn ->
     verify_hostname cert fqdn' = verify_hostname cert fqdn) /\
  verify_hostname cert (lower fqdn) = verify_hostname cert fqdn.
Proof.
  assert (M : forall fqdn' san,
             lower fqdn' = lower fqdn ->
             _match_hostname san fqdn' = _match_hostname san fqdn).
  { intros fqdn' san E. unfold _match_hostname. now rewrite E. }
  assert (G : forall fqdn', lower fqdn' = lower fqdn ->
                            verify_hostname cert fqdn' = verify_hostname cert fqdn).
  { intros fqdn' E. unfold verify_hostname.
    rewrite (existsb_ext_eq (fun san => _match_hostname san fqdn')
               (fun san => _match_hostname san fqdn))
      by (intros san; now apply M).
    destruct (CertificateParser.get_subject_cn cert) as [cn|]; [|reflexivity].
    now rewrite (M fqdn' cn E). }
  split; [exact G|]. apply G. apply lower_idem.
Qed.

Lemma verify_hostname_case_insensitive_witness :
  verify_hostname Samples.leaf "API.Example.COM"
  = verify_hostname Samples.leaf "api.example.com".
Proof.
  apply (proj1 (verify_hostname_case_insensitive Samples.leaf "api.example.com")).
  reflexivity.
Defined.

(** [get_certificate_chain] hands back at most one certificate, and
    passes on what the transport raises. *)
Lemma get_certificate_chain_cases `{Network} (self_timeout : Z) (fqdn : string)
    (port : Z) (timeout : option Z) :
  (exists cert, get_certificate_chain self_timeout fqdn port timeout = Py.Return [cert]) \/
  get_certificate_chain self_timeout fqdn port timeout = Py.Return [] \/
  (exists e, get_certificate_chain self_timeout fqdn port timeout = Py.Raise e /\
             tls_peer_certificate fqdn port (Py.or_int timeout self_timeout)
               = Py.Raise e).
Proof.
  unfold get_certificate_chain.
  destruct (tls_peer_certificate fqdn port (Py.or_int timeout self_timeout))
    as [[cert|]|e]; cbn [Py.rbind].
  - left. now exists cert.
  - right. now left.
  - right. right. now exists e.
Qed.

(** What [check_host] returns is an error result or the result for the
    one certificate received. *)
Lemma check_host_cases `{Network} (now self_timeout : Z) (fqdn : string)
    (port warning_days : Z) (host_name : option string) (timeout : option Z) :
  (exists msg,
     check_host now self_timeout fqdn port warning_days host_name timeout
     = Py.Return (error_result (Py.or_str host_name fqdn) fqdn port msg)) \/
  (exists cert,
     get_certificate_chain self_timeout fqdn port timeout = Py.Return [cert] /\
     check_host now self_timeout fqdn port warning_days host_name timeout
     = Py.Return
         (HostCheckResult.make (Py.or_str host_name fqdn) fqdn port
            (if negb (verify_hostname cert fqdn) then ERROR
             else ExpirationInfo.status (check_expiration now cert warning_days))
            (Some cert) (Some [cert])
            (Some (check_expiration now cert warning_days))
            (Some (verify_hostname cert fqdn)) None)).
Proof.
  unfold check_host.
  destruct (get_certificate_chain_cases self_timeout fqdn port timeout)
    as [(cert & E)|[E|(e & E & _)]]; rewrite E; cbn [Py.rbind Py.rtry].
  - right. exists cert. split; reflexivity.
  - left. eexists. reflexivity.
  - left. destruct e; eexists; reflexivity.
Qed.

(** Every result of [check_host] repeats the host name (the FQDN when no
    name is given), the FQDN and the port of the call; when it carries a
    certificate, the chain is that one certificate and the expiration and
    the host name verdict are those of that certificate; otherwise chain,
    expiration and verdict are all absent. *)
Theorem check_host_result_shape `{Network} (now self_timeout : Z) (fqdn : string)
    (port warning_days : Z) (host_name : option string) (timeout : option Z)
    (r : HostCheckResult.t) :
  check_host now self_timeout fqdn port warning_days host_name timeout = Py.Return r ->
  HostCheckResult.host_name r = Py.or_str host_name fqdn /\
  HostCheckResult.fqdn r = fqdn /\
  HostCheckResult.port r = port /\
  (forall cert, HostCheckResult.certificate r = Some cert ->
     HostCheckResult.certificate_chain r = Some [cert] /\
     HostCheckResult.expiration r = Some (check_expiration now cert warning_days) /\
     HostCheckResult.hostname_valid r = Some (verify_hostname cert fqdn)) /\
  (HostCheckResult.certificate r = None ->
     HostCheckResult.certificate_chain r = None /\
     HostCheckResult.expiration r = None /\
     HostCheckResult.hostname_valid r = None).
Proof.
  intros E.
  destruct (check_host_cases now self_timeout fqdn port warning_days host_name timeout)
    as [(msg & E')|(cert & _ & E')]; rewrite E' in E; injection E as <-;
    cbn; repeat split; try discriminate.
  all: match goal with
       | I : Some _ = Some _ |- _ => injection I as <-
       end; reflexivity.
Qed.

Lemma check_host_result_shape_witness :
  exists r,
    check_host (H := Samples.serves_leaf) 0 10 "api.example.com" 443 30 None (Some 0)
      = Py.Return r /\
    HostCheckResult.host_name r = "api.example.com" /\
    HostCheckResult.certificate_chain r = Some [Samples.leaf].
Proof.
  eexists. split; [reflexivity|].
  destruct (check_host_result_shape (H := Samples.serves_leaf)
              0 10 "api.example.com" 443 30 None (Some 0) _ eq_refl)
    as (N & _ & _ & C & _).
  split; [exact N|]. exact (proj1 (C Samples.leaf eq_refl)).
Defined.

(** What the status of a result means.  VALID: a certificate was
    received, it matches the host name, it has not expired and at least
    [warning_days] whole days are left.  ERROR: exactly when there is an
    error text or the host name does not match. *)
Theorem check_host_status_meaning `{Network} (now self_timeout : Z) (fqdn : string)
    (port warning_days : Z) (host_name : option string) (timeout : option Z)
    (r : HostCheckResult.t) :
  check_host now self_timeout fqdn port warning_days host_name timeout = Py.Return r ->
  (HostCheckResult.status r = VALID ->
     exists cert,
       HostCheckResult.certificate r = Some cert /\
       verify_hostname cert fqdn = true /\
       now <= not_valid_after_utc cert /\
       warning_days
         <= ExpirationInfo.days_remaining (check_expiration now cert warning_days)) /\
  (HostCheckResult.status r = ERROR <->
     HostCheckResult.error r <> None \/ HostCheckResult.hostname_valid r = Some false).
Proof.
  intros E.
  destruct (check_host_cases now self_timeout fqdn port warning_days host_name timeout)
    as [(msg & E')|(cert & _ & E')]; rewrite E' in E; injection E as <-; cbn.
  - split; [discriminate|]. split; [intros _; left; discriminate | reflexivity].
  - destruct (verify_hostname cert fqdn) eqn:V; cbn.
    + split.
      * intros S. exists cert. repeat split.
        -- exact V.
        -- destruct (Z.gtb_spec now (not_valid_after_utc cert)) as [G|G];
             [discriminate | lia].
        -- destruct (now >? not_valid_after_utc cert); [discriminate|].
           cbn [negb andb] in S.
           destruct (Z.ltb_spec (timedelta_days (not_valid_after_utc cert - now))
                       warning_days); [discriminate | lia].
      * split.
        -- unfold CertificateParser.get_validity_period.
           destruct (now >? not_valid_after_utc cert); [discriminate|].
           cbn [negb andb].
           destruct (timedelta_days (not_valid_after_utc cert - now) <? warning_days);
             discriminate.
        -- intros [N|N]; [congruence | discriminate].
    + split; [discriminate|]. split; [intros _; now right | reflexivity].
Qed.

Lemma check_host_status_meaning_witness :
  exists r,
    check_host (H := Samples.serves_leaf) 0 10 "api.example.com" 443 30 None None
      = Py.Return r /\
    HostCheckResult.status r = VALID /\
    verify_hostname Samples.leaf "api.example.com" = true.
Proof.
  eexists. split; [reflexivity|]. split; [reflexivity|].
  destruct (proj1 (check_host_status_meaning (H := Samples.serves_leaf)
                     0 10 "api.example.com" 443 30 None None _ eq_refl) eq_refl)
    as (cert & C & V & _).
  injection C as <-. exact V.
Defined.

(** [check_host] returns for every input. *)
Lemma check_host_returns `{Network} (now self_timeout : Z) (fqdn : string)
    (port warning_days : Z) (host_name : option string) (timeout : option Z) :
  exists r,
    check_host now self_timeout fqdn port warning_days host_name timeout = Py.Return r.
Proof.
  destruct (check_host_cases now self_timeout fqdn port warning_days host_name timeout)
    as [(msg & E)|(cert & _ & E)]; rewrite E; eexists; reflexivity.
Qed.

Lemma check_hosts_loop_run `{Network} (now : nat -> Z) (self_timeout settings_timeout : Z)
    (enabled_hosts : list Config.HostConfig.t) :
  forall (i : nat) (results : list HostCheckResult.t),
  exists out,
    check_hosts_loop now self_timeout settings_timeout i enabled_hosts results
      = Py.Return (results ++ out) /\
    length out = length enabled_hosts /\
    forall j host_config,
      nth_error enabled_hosts j = Some host_config ->
      exists r,
        nth_error out j = Some r /\
        check_host_config (now (i + j)%nat) self_timeout host_config settings_timeout
          = Py.Return r.
Proof.
  induction enabled_hosts as [|h hosts IH]; intros i results.
  - exists []. rewrite app_nil_r. repeat split. intros [|j] hc E; discriminate E.
  - cbn [check_hosts_loop].
    destruct (check_host_returns (now i) self_timeout
                (Config.HostConfig.fqdn h) (Config.HostConfig.port h)
                (Config.HostConfig.warning_days h)
                (Some (Config.HostConfig.name h)) (Some settings_timeout))
      as (r & E).
    rewrite E. cbn [Py.rbind].
    destruct (IH (S i) (results ++ [r])) as (out & R & L & N).
    exists (r :: out). rewrite R, <- app_assoc. repeat split.
    + cbn [length]. now rewrite L.
    + intros [|j] hc Ej.
      * injection Ej as <-. exists r. split; [reflexivity|].
        now rewrite Nat.add_0_r.
      * destruct (N j hc Ej) as (r' & Nr & Cr). exists r'. split; [exact Nr|].
        now rewrite Nat.add_succ_r.
Qed.

(** [check_all_hosts] never raises and returns one result per enabled
    host, in the order of the configuration: the result at position [i] is
    that of [check_host_config] for the [i]-th enabled host with the
    time-out of the settings, whatever happened to the other hosts. *)
Theorem check_all_hosts_results `{Network} (now : nat -> Z) (self_timeout : Z)
    (config : Config.t) :
  exists results,
    check_all_hosts now self_timeout config = Py.Return results /\
    length results = length (Config.get_enabled_hosts config) /\
    forall i host_config,
      nth_error (Config.get_enabled_hosts config) i = Some host_config ->
      exists r,
        nth_error results i = Some r /\
        check_host_config (now i) self_timeout host_config
          (Config.SettingsConfig.timeout (Config.settings config)) = Py.Return r /\
        HostCheckResult.fqdn r = Config.HostConfig.fqdn host_config /\
        HostCheckResult.port r = Config.HostConfig.port host_config.
Proof.
  unfold check_all_hosts.
  destruct (check_hosts_loop_run now self_timeout
              (Config.SettingsConfig.timeout (Config.settings config))
              (Config.get_enabled_hosts config) 0%nat [])
    as (out & R & L & N).
  exists out. split; [exact R|]. split; [exact L|].
  intros i hc E. destruct (N i hc E) as (r & Nr & Cr).
  exists r. split; [exact Nr|]. split; [exact Cr|].
  unfold check_host_config in Cr.
  destruct (check_host_cases (now (0 + i)%nat) self_timeout
              (Config.HostConfig.fqdn hc) (Config.HostConfig.port hc)
              (Config.HostConfig.warning_days hc)
              (Some (Config.HostConfig.name hc))
              (Some (Config.SettingsConfig.timeout (Config.settings config))))
    as [(msg & E')|(cert & _ & E')]; rewrite E' in Cr; injection Cr as <-;
    split; reflexivity.
Qed.

Lemma check_all_hosts_results_witness :
  exists results r0 r1,
    check_all_hosts (H := Samples.one_host_up) (fun _ => 0) 10 Samples.three_hosts
      = Py.Return results /\
    results = [r0; r1] /\
    HostCheckResult.status r0 = ERROR /\
    HostCheckResult.fqdn r0 = "nowhere.invalid" /\
    HostCheckResult.status r1 = VALID /\
    HostCheckResult.host_name r1 = "api".
Proof.
  destruct (check_all_hosts_results (H := Samples.one_host_up)
              (fun _ => 0) 10 Samples.three_hosts)
    as (results & R & L & N).
  destruct results as [|r0 [|r1 [|r2 results]]]; try discriminate L.
  exists [r0; r1], r0, r1. split; [exact R|]. split; [reflexivity|].
  destruct (N 0%nat _ eq_refl) as (x0 & E0 & C0 & _).
  destruct (N 1%nat _ eq_refl) as (x1 & E1 & C1 & _).
  injection E0 as <-. injection E1 as <-.
  injection C0 as <-. injection C1 as <-.
  repeat split.
Defined.

End RemoteFacts.

(* ================================================================== *)
(** * Properties of [config.py] *)
(* ================================================================== *)

Module ConfigFacts.
Import PyStr PyStrFacts Config.

Lemma truthy_iff (s : string) : truthy s = true <-> s <> "".
Proof. destruct s; simpl; split; congruence. Qed.

(** The loop over the parts passes exactly when every part is a label. *)
Lemma validate_parts_ok (parts : list string) :
  validate_parts parts = Py.Return tt <-> Forall label_ok parts.
Proof.
  induction parts as [|p parts IH]; simpl.
  - split; [constructor | reflexivity].
  - destruct (truthy p) eqn:T; cbn [negb orb].
    + destruct (Nat.ltb_spec 63 (String.length p)) as [L|L].
      * split; [discriminate|]. intros F. inversion F as [|? ? (_ & B & _)]. lia.
      * destruct (label_match p) eqn:M; cbn [negb].
        -- rewrite IH. split.
           ++ intros F. constructor; [|exact F].
              repeat split; [now apply truthy_iff | exact L | exact M].
           ++ intros F. now inversion F.
        -- split; [discriminate|]. intros F. inversion F as [|? ? (_ & _ & B)].
           congruence.
    + split; [discriminate|]. intros F. inversion F as [|? ? (B & _)].
      apply truthy_iff in B. congruence.
Qed.

Lemma validate_parts_unit (parts : list string) (u : unit) :
  validate_parts parts = Py.Return u <-> Forall label_ok parts.
Proof. destruct u. apply validate_parts_ok. Qed.

Lemma label_match_first (part : string) :
  label_match part = true ->
  exists c rest, part = String c rest /\ alnum c = true.
Proof.
  unfold label_match. intros M. apply orb_true_iff in M as [M|M].
  - destruct part as [|c [|d rest]]; simpl in M; [discriminate | |].
    + now exists c, "".
    + apply andb_true_iff in M as [A _]. now exists c, (String d rest).
  - destruct (before_final_newline part) as [core|] eqn:B; [|discriminate].
    destruct part as [|c [|d rest]]; simpl in B; [discriminate | |].
    + destruct (Ascii.eqb c "010"); [|discriminate].
      injection B as <-. discriminate M.
    + destruct (match rest with
                | "" => if Ascii.eqb d "010" then Some "" else None
                | String _ _ =>
                    match before_final_newline rest with
                    | Some r => Some (String d r)
                    | None => None
                    end
                end) as [r|]; [|discriminate].
      injection B as <-. exists c, (String d rest). split; [reflexivity|].
      destruct r; simpl in M; [exact M|].
      now apply andb_true_iff in M as [A _].
Qed.

(** [validate_fqdn] returns its argument unchanged, and accepts exactly
    the names of 1 to 253 characters that split at the dots into at least
    two parts, each of 1 to 63 characters and matching the label pattern.
    In an accepted name no part is empty (no leading, trailing or doubled
    dot) and every part starts with a letter or a digit. *)
Theorem validate_fqdn_accepts (v w : string) :
  (validate_fqdn v = Py.Return w <->
     w = v /\ v <> "" /\ (String.length v <= 253)%nat /\
     (2 <= length (split "." v))%nat /\ Forall label_ok (split "." v)) /\
  (validate_fqdn v = Py.Return w ->
     Forall (fun part => exists c rest, part = String c rest /\ alnum c = true)
            (split "." v)).
Proof.
  assert (C : validate_fqdn v = Py.Return w <->
              w = v /\ v <> "" /\ (String.length v <= 253)%nat /\
              (2 <= length (split "." v))%nat /\ Forall label_ok (split "." v)).
  { unfold validate_fqdn.
    destruct (truthy v) eqn:T; cbn [negb orb].
    - apply truthy_iff in T.
      destruct (Nat.ltb_spec 253 (String.length v)) as [L|L].
      + split; [discriminate | intros (_ & _ & B & _); lia].
      + destruct (Nat.ltb_spec (length (split "." v)) 2) as [P|P].
        * split; [discriminate | intros (_ & _ & _ & B & _); lia].
        * destruct (validate_parts (split "." v)) as [u|e] eqn:V; cbn [Py.rbind].
          -- apply validate_parts_unit in V. split.
             ++ intros [= <-]. repeat split; assumption.
             ++ now intros (-> & _).
          -- split; [discriminate|]. intros (_ & _ & _ & _ & F).
             apply validate_parts_ok in F. congruence.
    - split; [discriminate|]. intros (_ & B & _).
      apply truthy_iff in B. congruence. }
  split; [exact C|].
  intros E. apply C in E as (_ & _ & _ & _ & F).
  eapply Forall_impl; [|exact F].
  intros part (_ & _ & M). now apply label_match_first.
Qed.

Lemma validate_fqdn_accepts_witness :
  validate_fqdn "api.example.com" = Py.Return "api.example.com" /\
  Forall (fun part => exists c rest, part = String c rest /\ alnum c = true)
         (split "." "api.example.com").
Proof.
  split; [reflexivity|].
  apply (proj2 (validate_fqdn_accepts "api.example.com" "api.example.com")).
  reflexivity.
Defined.

Lemma split_app_sep (sep : ascii) (a b : string) :
  split sep (a ++ String sep b)%string = split sep a ++ split sep b.
Proof.
  induction a as [|c a IH]; simpl.
  - now rewrite Ascii.eqb_refl.
  - destruct (Ascii.eqb c sep); [now rewrite IH|].
    rewrite IH. destruct (split_cons sep a) as (w & ws & ->). reflexivity.
Qed.

Lemma split_free_single (sep : ascii) (s : string) :
  free_of sep s = true -> split sep s = [s].
Proof.
  induction s as [|c s IH]; simpl; [reflexivity|]. intros F.
  apply andb_true_iff in F as [C F]. apply negb_true_iff in C.
  now rewrite C, (IH F).
Qed.

Lemma free_of_app (sep : ascii) (a b : string) :
  free_of sep (a ++ b)%string = free_of sep a && free_of sep b.
Proof.
  induction a as [|c a IH]; simpl; [reflexivity|]. now rewrite IH, andb_assoc.
Qed.

Lemma length_append (a b : string) :
  String.length (a ++ b)%string = (String.length a + String.length b)%nat.
Proof. induction a as [|c a IH]; simpl; [reflexivity|]. now rewrite IH. Qed.

Lemma before_final_newline_app (s : string) :
  before_final_newline (s ++ String "010" "")%string = Some s.
Proof.
  induction s as [|c s IH]; [reflexivity|].
  change (String c s ++ String "010" "")%string
    with (String c (s ++ String "010" ""))%string.
  cbn [before_final_newline]. rewrite IH.
  destruct (s ++ String "010" "")%string eqn:E; [|reflexivity].
  destruct s; discriminate E.
Qed.

(** The [$] of the label pattern lets a line feed through: a name whose
    last part matches the pattern is still accepted with a line feed
    added at its end, as long as the lengths allow it. *)
Theorem validate_fqdn_trailing_newline (front part : string) :
  validate_fqdn (front ++ "." ++ part)
    = Py.Return (front ++ "." ++ part)%string ->
  free_of "." part = true ->
  label_pattern part = true ->
  (String.length part < 63)%nat ->
  (String.length (front ++ "." ++ part) < 253)%nat ->
  validate_fqdn (front ++ "." ++ part ++ String "010" "")
    = Py.Return (front ++ "." ++ part ++ String "010" "")%string.
Proof.
  intros V F P L63 L253.
  apply (proj1 (validate_fqdn_accepts _ _)) in V as (_ & _ & _ & N & A).
  apply (proj1 (validate_fqdn_accepts _ _)).
  cbn [append] in *.
  rewrite split_app_sep in *.
  rewrite (split_free_single "." part F) in *.
  assert (F' : free_of "." (part ++ String "010" "") = true)
    by (rewrite free_of_app, F; reflexivity).
  rewrite (split_free_single "." _ F').
  repeat split.
  - destruct front; discriminate.
  - rewrite length_append in *. cbn [String.length] in *.
    rewrite length_append. cbn [String.length]. lia.
  - rewrite length_app in *. cbn [length] in *. lia.
  - apply Forall_app in A as [A _]. apply Forall_app. split; [exact A|].
    constructor; [|constructor]. repeat split.
    + destruct part; discriminate.
    + rewrite length_append. cbn [String.length]. lia.
    + unfold label_match. rewrite before_final_newline_app, P.
      apply orb_true_r.
Qed.

Lemma validate_fqdn_trailing_newline_witness :
  validate_fqdn ("example" ++ "." ++ "com" ++ String "010" "")
    = Py.Return ("example" ++ "." ++ "com" ++ String "010" "")%string.
Proof.
  apply (validate_fqdn_trailing_newline "example" "com");
    [reflexivity | reflexivity | reflexivity | |]; vm_compute; lia.
Defined.

Lemma lower_char_dot (c : ascii) : lower_char c = "."%char -> c = "."%char.
Proof. destruct c as [[] [] [] [] [] [] [] []]; cbv; intros E; congruence. Qed.

(** For a host name that [validate_fqdn] accepts, the label that a
    wildcard pattern covers is never empty: the pattern [*.rest] matches
    only names made of one non-empty dot-free label followed by
    [.rest]. *)
Theorem wildcard_on_validated_fqdn (pattern fqdn rest : string) :
  validate_fqdn fqdn = Py.Return fqdn ->
  lower pattern = ("*." ++ rest)%string ->
  Remote._match_hostname pattern fqdn = true ->
  exists label,
    label <> "" /\ free_of "." label = true /\
    lower fqdn = (label ++ "." ++ rest)%string.
Proof.
  intros V P M.
  apply (RemoteSpec.match_wildcard_label pattern fqdn rest P) in M
    as (label & F & E).
  exists label. split; [|now split].
  intros ->. cbn [append] in E.
  apply (proj1 (validate_fqdn_accepts _ _)) in V as (_ & _ & _ & _ & A).
  destruct fqdn as [|c fqdn]; [discriminate E|].
  cbn [lower] in E. injection E as C _.
  apply lower_char_dot in C. subst c.
  cbn [split] in A. rewrite Ascii.eqb_refl in A.
  inversion A as [|? ? (B & _)]. now apply B.
Qed.

Lemma wildcard_on_validated_fqdn_witness :
  exists label,
    label <> "" /\ free_of "." label = true /\
    lower "API.example.com" = (label ++ "." ++ "example.com")%string.
Proof.
  apply (wildcard_on_validated_fqdn "*.Example.com" "API.example.com" "example.com");
    reflexivity.
Defined.

Lemma find_host_spec (hosts : list HostConfig.t) (name : string) :
  match find_host hosts name with
  | Some host =>
      exists before after,
        hosts = before ++ host :: after /\
        HostConfig.name host = name /\
        Forall (fun h => HostConfig.name h <> name) before
  | None => Forall (fun h => HostConfig.name h <> name) hosts
  end.
Proof.
  induction hosts as [|h hosts IH]; simpl; [constructor|].
  destruct (String.eqb_spec (HostConfig.name h) name) as [E|NE].
  - exists [], hosts. repeat split; [exact E | constructor].
  - destruct (find_host hosts name) as [host|].
    + destruct IH as (before & after & -> & N & F).
      exists (h :: before), after. repeat split; [exact N | now constructor].
    + now constructor.
Qed.

(** [get_host_by_name] returns the first host of the configuration that
    carries the name, enabled or not, and [None] exactly when no host
    carries it. *)
Theorem get_host_by_name_first (self : Config.t) (name : string) :
  (forall host, get_host_by_name self name = Some host ->
     exists before after,
       hosts self = before ++ host :: after /\
       HostConfig.name host = name /\
       Forall (fun h => HostConfig.name h <> name) before) /\
  (get_host_by_name self name = None <->
     Forall (fun h => HostConfig.name h <> name) (hosts self)).
Proof.
  unfold get_host_by_name.
  pose proof (find_host_spec (hosts self) name) as S.
  destruct (find_host (hosts self) name) as [host|].
  - split.
    + now intros host' [= <-].
    + split; [discriminate|]. intros F.
      destruct S as (before & after & E & N & _). rewrite E in F.
      apply Forall_app in F as [_ F]. inversion F. congruence.
  - split; [discriminate|]. now split.
Qed.

Lemma get_host_by_name_first_witness :
  exists before after,
    hosts Samples.three_hosts
      = before ++ HostConfig.make "off" "api.example.com" 8443 false 30 false :: after /\
    Forall (fun h => HostConfig.name h <> "off") before.
Proof.
  destruct (proj1 (get_host_by_name_first Samples.three_hosts "off") _ eq_refl)
    as (before & after & E & _ & F).
  now exists before, after.
Defined.

End ConfigFacts.

(* ================================================================== *)
(** * Further properties of [validator.py] *)
(* ================================================================== *)

Module ValidatorFacts.
Import X509 PyStr Validator ValidatorSpec.

Section WithBackend.
Context `{CryptoBackend}.

(** The first loop either runs to its end or returns a failure. *)
Lemma structural_loop_cases (certs : list Certificate) :
  forall (i : nat) (msgs : list string),
    (forallb (fun c => negb (key_usage_fatal c)) certs = true /\
     structural_loop i certs msgs = inr (msgs ++ structural_messages i certs)) \/
    (forallb (fun c => negb (key_usage_fatal c)) certs = false /\
     exists r, structural_loop i certs msgs = inl r /\
               status r = INVALID /\ is_valid r = false).
Proof.
  induction certs as [|c certs IH]; intros i msgs.
  - left. split; [reflexivity|]. simpl. now rewrite app_nil_r.
  - rewrite structural_loop_step. cbn [forallb structural_messages].
    destruct (key_usage_fatal c); cbn [negb andb].
    + right. split; [reflexivity|]. eexists. repeat split.
    + destruct (IH (S i) (msgs ++ structural_messages_of i c)) as [[F E]|[F E]].
      * left. split; [exact F|]. now rewrite E, <- app_assoc.
      * right. now split.
Qed.

(** The second loop either confirms every pair or returns a failure after
    calling the verifier on some first pairs. *)
Lemma linkage_loop_cases (certs : list Certificate) :
  forall (i : nat) (msgs : list string) (t : list event),
    (links_ok certs = true /\
     linkage_loop i certs msgs t
     = (Py.Return (inr (msgs ++ link_confirmations i (pred (length certs)))),
        t ++ link_calls certs)) \/
    (links_ok certs = false /\
     exists r calls later,
       linkage_loop i certs msgs t = (Py.Return (inl r), t ++ calls) /\
       status r = INVALID /\ is_valid r = false /\
       link_calls certs = calls ++ later).
Proof.
  induction certs as [|c certs IH]; intros i msgs t.
  - left. split; [reflexivity|]. simpl. now rewrite !app_nil_r.
  - destruct certs as [|d certs].
    + left. split; [reflexivity|]. simpl. now rewrite !app_nil_r.
    + rewrite linkage_loop_step.
      change (links_ok (c :: d :: certs)) with (linked c d && links_ok (d :: certs)).
      change (link_calls (c :: d :: certs))
        with (VerifyCall c d :: link_calls (d :: certs)).
      unfold linked.
      destruct (Name_eqb (issuer c) (subject d)); cbn [negb andb].
      * destruct (signature_verifies c d); cbn [negb andb].
        -- destruct (IH (S i)
                       (msgs ++ [("Cert " ++ str_of_nat i ++ ": Signature valid")%string])
                       (t ++ [VerifyCall c d]))
             as [[L E]|[L (r & calls & later & E & S & V & C)]].
           ++ left. split; [exact L|]. rewrite E.
              cbn [length pred link_confirmations]. now rewrite <- !app_assoc.
           ++ right. split; [exact L|].
              exists r, (VerifyCall c d :: calls), later.
              rewrite E, <- app_assoc, C. repeat split; assumption.
        -- right. split; [reflexivity|].
           exists (Build INVALID
                     (msgs ++ [("Cert " ++ str_of_nat i
                                  ++ ": Invalid signature from issuer")%string])
                     false),
             [VerifyCall c d], (link_calls (d :: certs)).
           repeat split.
      * right. split; [reflexivity|].
        exists (Build INVALID
                  (msgs ++ [("Cert " ++ str_of_nat i
                               ++ ": Issuer does not match next cert in chain")%string])
                  false),
          [], (VerifyCall c d :: link_calls (d :: certs)).
        rewrite app_nil_r. repeat split.
Qed.

(** The whole of [validate_chain]: it returns, its verdict is
    [chain_accepted], and the verifier calls it adds to the log are first
    calls of the second loop, then possibly those of the loop over the
    trust store. *)
Lemma validate_chain_outcome (truststore cert_chain : list Certificate)
    (default : Certificate) (use_truststore : bool) (t : list event) :
  exists r link_part trust_part later,
    validate_chain truststore cert_chain use_truststore t
      = (Py.Return r, t ++ link_part ++ trust_part) /\
    is_valid r = chain_accepted truststore cert_chain use_truststore /\
    (status r = VALID /\ is_valid r = true \/
     status r = INVALID /\ is_valid r = false) /\
    link_calls cert_chain = link_part ++ later /\
    (trust_part = [] \/
     chain_accepted truststore cert_chain false = true /\
     trust_part = trust_calls (last cert_chain default) truststore).
Proof.
  destruct cert_chain as [|first rest].
  - exists (Build INVALID ["Empty certificate chain"] false), [], [], [].
    rewrite app_nil_r. repeat split; auto.
  - assert (NE : first :: rest <> []) by discriminate.
    unfold chain_accepted.
    rewrite (last_default (first :: rest) default first NE).
    destruct (structural_loop_cases (first :: rest) 0 [])
      as [[F E]|[F (r & E & S & V)]]; rewrite F; cbn [andb].
    + rewrite (validate_chain_structured truststore _ first use_truststore _ t NE E).
      destruct (linkage_loop_cases (first :: rest) 0
                  ([] ++ structural_messages 0 (first :: rest)) t)
        as [[L E']|[L (r & calls & later & E' & S & V & C)]]; rewrite L, E';
        cbn [andb].
      * destruct (use_truststore && negb (Nat.eqb (length truststore) 0)); cbn [negb orb].
        -- eexists _, (link_calls (first :: rest)), _, [].
           split; [now rewrite <- (app_assoc t)|].
           destruct (existsb (anchors (last (first :: rest) first)) truststore);
             repeat split; auto using app_nil_r.
        -- eexists _, (link_calls (first :: rest)), [], [].
           rewrite !app_nil_r. repeat split; auto.
      * exists r, calls, [], later. rewrite app_nil_r.
        repeat split; auto; try (now rewrite V).
    + exists r, [], [], (link_calls (first :: rest)).
      rewrite !app_nil_r. unfold validate_chain. rewrite E.
      repeat split; auto; try (now rewrite V).
Qed.

Lemma chain_accepted_iff (truststore cert_chain : list Certificate)
    (default : Certificate) (use_truststore : bool) :
  chain_accepted truststore cert_chain use_truststore = true <->
  cert_chain <> [] /\
  Forall (fun c => key_usage_fatal c = false) cert_chain /\
  links_ok cert_chain = true /\
  (use_truststore = false \/ truststore = [] \/
   exists a, In a truststore /\
             subject (last cert_chain default) = subject a /\
             signature_verifies (last cert_chain default) a = true).
Proof.
  destruct cert_chain as [|first rest].
  - simpl. split; [discriminate | intros (NE & _); congruence].
  - assert (NE : first :: rest <> []) by discriminate.
    rewrite (last_default (first :: rest) default first NE).
    unfold chain_accepted. rewrite !andb_true_iff, forallb_forall, Forall_forall.
    assert (A : negb (use_truststore && negb (Nat.eqb (length truststore) 0))
                || existsb (anchors (last (first :: rest) first)) truststore = true <->
                (use_truststore = false \/ truststore = [] \/
                 exists a, In a truststore /\
                           subject (last (first :: rest) first) = subject a /\
                           signature_verifies (last (first :: rest) first) a = true)).
    { rewrite orb_true_iff, existsb_exists. split.
      - intros [U|(a & I & An)].
        + destruct use_truststore; [|now left]. right. left.
          destruct truststore; [reflexivity | discriminate U].
        + right. right. exists a. unfold anchors in An.
          apply andb_true_iff in An as [N V].
          repeat split; [exact I | now apply Name_eqb_eq | exact V].
      - intros [->|[->|(a & I & N & V)]]; [now left | left; now destruct use_truststore |].
        right. exists a. split; [exact I|]. unfold anchors.
        now rewrite (proj2 (Name_eqb_eq _ _) N), V. }
    rewrite A. split.
    + intros [[F L] T]. repeat split; try assumption.
      intros c I. apply negb_true_iff. now apply F.
    + intros (_ & F & L & T). repeat split; try assumption.
      intros c I. apply negb_true_iff. now apply F.
Qed.

(** [validate_chain] accepts exactly the non-empty chains in which no CA
    certificate lacks keyCertSign in a present key usage, every
    certificate is issued and signed by the next, and, when the trust
    store is asked for and is not empty, some anchor carries the subject of
    the last certificate and verifies it.  With an empty trust store no
    anchor is looked for at all. *)
Theorem validate_chain_verdict (truststore cert_chain : list Certificate)
    (default : Certificate) (use_truststore : bool) (t : list event) :
  exists r t',
    validate_chain truststore cert_chain use_truststore t = (Py.Return r, t') /\
    (is_valid r = true <->
       cert_chain <> [] /\
       Forall (fun c => key_usage_fatal c = false) cert_chain /\
       links_ok cert_chain = true /\
       (use_truststore = false \/ truststore = [] \/
        exists a, In a truststore /\
                  subject (last cert_chain default) = subject a /\
                  signature_verifies (last cert_chain default) a = true)).
Proof.
  destruct (validate_chain_outcome truststore cert_chain default use_truststore t)
    as (r & lp & tp & later & E & V & _).
  exists r, (t ++ lp ++ tp). split; [exact E|].
  rewrite V. apply chain_accepted_iff.
Qed.

Lemma existsb_Permutation {A} (f : A -> bool) (l l' : list A) :
  Permutation l l' -> existsb f l = existsb f l'.
Proof.
  induction 1 as [|x l l' P IH|x y l|l l' l'' P1 IH1 P2 IH2]; simpl.
  - reflexivity.
  - now rewrite IH.
  - now rewrite !orb_assoc, (orb_comm (f y) (f x)).
  - now rewrite IH1.
Qed.

(** The result of [validate_chain], verdict and trail, does not depend on
    the order of the trust store. *)
Theorem validate_chain_truststore_order (truststore truststore' cert_chain : list Certificate)
    (use_truststore : bool) (t : list event) :
  Permutation truststore truststore' ->
  fst (validate_chain truststore cert_chain use_truststore t)
  = fst (validate_chain truststore' cert_chain use_truststore t).
Proof.
  intros P. destruct cert_chain as [|first rest]; [reflexivity|].
  assert (NE : first :: rest <> []) by discriminate.
  destruct (structural_loop 0 (first :: rest) []) as [failure|msgs0] eqn:E.
  - unfold validate_chain. now rewrite E.
  - rewrite (validate_chain_structured truststore _ first use_truststore msgs0 t NE E).
    rewrite (validate_chain_structured truststore' _ first use_truststore msgs0 t NE E).
    rewrite (Permutation_length P), (existsb_Permutation _ _ _ P).
    destruct (linkage_loop 0 (first :: rest) msgs0 t) as [[[failure|msgs]|e] t'];
      try reflexivity.
    now destruct (use_truststore && negb (Nat.eqb (length truststore') 0)).
Qed.

Lemma trust_calls_found_app (root_cert : Certificate)
    (truststore extra : list Certificate) :
  existsb (anchors root_cert) truststore = true ->
  trust_calls root_cert (truststore ++ extra) = trust_calls root_cert truststore.
Proof.
  induction truststore as [|a ts IH]; [discriminate|].
  cbn [existsb app trust_calls]. unfold anchors at 1.
  destruct (Name_eqb (subject root_cert) (subject a)); cbn [andb orb].
  - destruct (signature_verifies root_cert a); cbn [orb]; [reflexivity|].
    intros E. now rewrite (IH E).
  - exact IH.
Qed.

(** Adding a trusted certificate to a trust store that is not empty
    leaves every accepted chain accepted, with the same trail and the same
    verifier calls. *)
Theorem add_trusted_cert_keeps_valid (truststore cert_chain : list Certificate)
    (cert : Certificate) (use_truststore : bool) (t t' : list event)
    (r : ValidationResult) :
  truststore <> [] ->
  validate_chain truststore cert_chain use_truststore t = (Py.Return r, t') ->
  is_valid r = true ->
  validate_chain (add_trusted_cert truststore cert) cert_chain use_truststore t
  = (Py.Return r, t').
Proof.
  intros NT E V. unfold add_trusted_cert.
  destruct cert_chain as [|first rest].
  - injection E as <- <-. discriminate V.
  - assert (NE : first :: rest <> []) by discriminate.
    destruct (structural_loop 0 (first :: rest) []) as [failure|msgs0] eqn:ES.
    + unfold validate_chain in E |- *. rewrite ES in E |- *. exact E.
    + rewrite (validate_chain_structured truststore _ first use_truststore msgs0 t NE ES)
        in E.
      rewrite (validate_chain_structured (truststore ++ [cert]) _ first use_truststore
                 msgs0 t NE ES).
      destruct (linkage_loop 0 (first :: rest) msgs0 t) as [[[failure|msgs]|e] t1];
        try exact E.
      assert (L : Nat.eqb (length (truststore ++ [cert])) 0
                  = Nat.eqb (length truststore) 0).
      { destruct truststore; [congruence | reflexivity]. }
      rewrite L.
      destruct (use_truststore && negb (Nat.eqb (length truststore) 0)); [|exact E].
      destruct (existsb (anchors (last (first :: rest) first)) truststore) eqn:A.
      * rewrite existsb_app, A. cbn [orb].
        now rewrite (trust_calls_found_app _ _ _ A).
      * injection E as <- <-. discriminate V.
Qed.

Lemma links_ok_suffix (before certs : list Certificate) :
  links_ok (before ++ certs) = true -> links_ok certs = true.
Proof.
  induction before as [|p before IH]; [trivial|].
  destruct before as [|q before].
  - destruct certs as [|c certs]; [reflexivity|].
    change (links_ok ([p] ++ c :: certs)) with (linked p c && links_ok (c :: certs)).
    intros L. now apply andb_true_iff in L.
  - change (links_ok ((p :: q :: before) ++ certs))
      with (linked p q && links_ok ((q :: before) ++ certs)).
    intros L. apply andb_true_iff in L as [_ L]. now apply IH.
Qed.

Lemma last_suffix (before certs : list Certificate) (d : Certificate) :
  certs <> [] -> last (before ++ certs) d = last certs d.
Proof.
  intros NE. induction before as [|p before IH]; [reflexivity|].
  change (last (p :: (before ++ certs)) d = last certs d).
  destruct (before ++ certs) eqn:E; [|exact IH].
  apply app_eq_nil in E as [_ E]. congruence.
Qed.

(** An accepted chain stays accepted when certificates are dropped from
    its front: every non-empty tail of an accepted chain is accepted with
    the same trust store. *)
Theorem validate_chain_tail (truststore before cert_chain : list Certificate)
    (use_truststore : bool) (t t' : list event) (r : ValidationResult) :
  cert_chain <> [] ->
  validate_chain truststore (before ++ cert_chain) use_truststore t = (Py.Return r, t') ->
  is_valid r = true ->
  exists r' t'',
    validate_chain truststore cert_chain use_truststore t = (Py.Return r', t'') /\
    is_valid r' = true /\ status r' = VALID.
Proof.
  intros NE E V.
  destruct cert_chain as [|c0 rest0] eqn:EC; [congruence|]. rewrite <- EC in *.
  destruct (validate_chain_outcome truststore (before ++ cert_chain) c0 use_truststore t)
    as (r0 & lp & tp & later & E0 & V0 & _).
  rewrite E0 in E. injection E as -> _. rewrite V in V0. symmetry in V0.
  apply (chain_accepted_iff _ _ c0) in V0 as (_ & F & L & T).
  destruct (validate_chain_outcome truststore cert_chain c0 use_truststore t)
    as (r' & lp' & tp' & later' & E' & V' & S' & _).
  assert (A : chain_accepted truststore cert_chain use_truststore = true).
  { apply (chain_accepted_iff _ _ c0). split; [now rewrite EC|].
    apply Forall_app in F as [_ F]. split; [exact F|].
    split; [now apply (links_ok_suffix before)|].
    rewrite (last_suffix before cert_chain c0) in T by (now rewrite EC). exact T. }
  exists r', (t ++ lp' ++ tp'). split; [exact E'|].
  rewrite A in V'. split; [exact V'|].
  destruct S' as [[S _]|[_ S]]; [exact S | congruence].
Qed.

Lemma link_calls_length (certs : list Certificate) :
  length (link_calls certs) = pred (length certs).
Proof.
  induction certs as [|c certs IH]; [reflexivity|].
  destruct certs as [|d certs]; [reflexivity|].
  change (S (length (link_calls (d :: certs))) = S (length certs)).
  now rewrite IH.
Qed.

Lemma link_calls_adjacent (certs : list Certificate) :
  forall before,
    Forall (fun ev => match ev with
                      | VerifyCall c i =>
                          exists pre post, before ++ certs = pre ++ c :: i :: post
                      end)
           (link_calls certs).
Proof.
  induction certs as [|c certs IH]; intros before; [constructor|].
  destruct certs as [|d certs]; [constructor|].
  change (link_calls (c :: d :: certs)) with (VerifyCall c d :: link_calls (d :: certs)).
  constructor.
  - now exists before, certs.
  - specialize (IH (before ++ [c])). rewrite <- app_assoc in IH. exact IH.
Qed.

Lemma trust_calls_length (root_cert : Certificate) (truststore : list Certificate) :
  length (trust_calls root_cert truststore) <= length truststore.
Proof.
  induction truststore as [|a ts IH]; simpl; [lia|].
  destruct (Name_eqb (subject root_cert) (subject a)); [|lia].
  destruct (signature_verifies root_cert a); simpl; lia.
Qed.

Lemma trust_calls_anchors (root_cert : Certificate) (truststore : list Certificate) :
  Forall (fun ev => match ev with
                    | VerifyCall c a =>
                        c = root_cert /\ In a truststore /\ subject c = subject a
                    end)
         (trust_calls root_cert truststore).
Proof.
  induction truststore as [|a ts IH]; simpl; [constructor|].
  assert (IH' : Forall (fun ev => match ev with
                                  | VerifyCall c a0 =>
                                      c = root_cert /\ (a = a0 \/ In a0 ts) /\
                                      subject c = subject a0
                                  end)
                       (trust_calls root_cert ts)).
  { eapply Forall_impl; [|exact IH]. intros [c a0] (-> & I & N). auto. }
  destruct (Name_eqb (subject root_cert) (subject a)) eqn:N; [|exact IH'].
  apply Name_eqb_eq in N.
  constructor; [auto|].
  destruct (signature_verifies root_cert a); [constructor | exact IH'].
Qed.

(** [validate_chain] only adds to the log, and what it adds is bounded
    and predictable: at most one call per adjacent pair of the chain and one
    per trust anchor, each on two neighbours of the chain or on the last
    certificate and an anchor that carries its subject. *)
Theorem validate_chain_calls (truststore cert_chain : list Certificate)
    (use_truststore : bool) (t t' : list event) (r : ValidationResult) :
  validate_chain truststore cert_chain use_truststore t = (Py.Return r, t') ->
  exists calls,
    t' = t ++ calls /\
    length calls <= pred (length cert_chain) + length truststore /\
    Forall (expected_call truststore cert_chain) calls.
Proof.
  intros E.
  destruct cert_chain as [|first rest] eqn:EC.
  - injection E as _ <-. exists []. rewrite app_nil_r. repeat split; [simpl; lia|constructor].
  - rewrite <- EC in *.
    assert (NE : cert_chain <> []) by (rewrite EC; discriminate).
    destruct (validate_chain_outcome truststore cert_chain first use_truststore t)
      as (r0 & lp & tp & later & E0 & _ & _ & LC & TP).
    rewrite E0 in E. injection E as _ <-.
    exists (lp ++ tp). split; [reflexivity|].
    pose proof (link_calls_length cert_chain) as LL.
    pose proof (link_calls_adjacent cert_chain []) as LA.
    rewrite LC in LL, LA. rewrite length_app in LL.
    apply Forall_app in LA as [LA _].
    split.
    + rewrite length_app. destruct TP as [->|[_ ->]]; [simpl; lia|].
      pose proof (trust_calls_length (last cert_chain first) truststore). lia.
    + apply Forall_app. split.
      * eapply Forall_impl; [|exact LA]. intros [c i] P. now left.
      * destruct TP as [->|[_ ->]]; [constructor|].
        eapply Forall_impl; [|apply trust_calls_anchors].
        intros [c a] (-> & I & N). right. split; [|now split].
        exists (removelast cert_chain). now apply app_removelast_last.
Qed.

(** [validate_single] accepts exactly when the certificate is not a CA
    lacking keyCertSign in a present key usage and, if subject and issuer
    are equal, its signature verifies under its own key.  The verifier is
    called once in that self-signed case and never otherwise: the signature
    of a certificate that is not self-signed is not checked. *)
Theorem validate_single_verdict (cert : Certificate) (t : list event) :
  exists r,
    validate_single cert t
    = (Py.Return r,
       t ++ (if negb (key_usage_fatal cert)
                && CertificateParser.is_self_signed cert
             then [VerifyCall cert cert] else [])) /\
    (is_valid r = true <->
       key_usage_fatal cert = false /\
       (subject cert = issuer cert -> signature_verifies cert cert = true)) /\
    (status r = VALID <-> is_valid r = true).
Proof.
  unfold validate_single, CertificateParser.is_self_signed, key_usage_fatal.
  destruct (negb (is_valid (check_key_usage cert))); cbn [negb andb].
  - eexists. split; [unfold Py.ret; now rewrite app_nil_r|]. cbn.
    repeat split; try discriminate. now intros [B _].
  - destruct (Name_eqb (subject cert) (issuer cert)) eqn:N.
    + apply Name_eqb_eq in N.
      unfold Py.bind. rewrite verify_signature_run.
      destruct (signature_verifies cert cert) eqn:V;
        eexists; (split; [reflexivity|]); cbn; repeat split; try discriminate; auto.
      intros [_ B]. now apply B.
    + eexists. split; [unfold Py.ret; now rewrite app_nil_r|]. cbn.
      repeat split; try discriminate.
      intros E. apply Name_eqb_eq in E. congruence.
Qed.

(** On a chain of one certificate, without a trust store in play,
    [validate_chain] checks no signature at all and accepts exactly when
    the first loop passes; so whatever [validate_single] accepts, it
    accepts too. *)
Theorem single_certificate_chain (truststore : list Certificate) (cert : Certificate)
    (use_truststore : bool) (t : list event) :
  use_truststore = false \/ truststore = [] ->
  exists r,
    validate_chain truststore [cert] use_truststore t = (Py.Return r, t) /\
    (is_valid r = true <-> key_usage_fatal cert = false) /\
    (forall r1 t1, validate_single cert t = (Py.Return r1, t1) ->
                   is_valid r1 = true -> is_valid r = true).
Proof.
  intros T.
  assert (U : use_truststore && negb (Nat.eqb (length truststore) 0) = false)
    by (destruct T as [->| ->]; [reflexivity | apply andb_false_r]).
  assert (R : exists r,
             validate_chain truststore [cert] use_truststore t = (Py.Return r, t) /\
             (is_valid r = true <-> key_usage_fatal cert = false)).
  { unfold validate_chain. rewrite structural_loop_step.
    destruct (key_usage_fatal cert).
    - eexists. split; [reflexivity|]. cbn. split; discriminate.
    - cbn [structural_loop linkage_loop]. unfold Py.bind, Py.ret. rewrite U.
      eexists. split; [reflexivity|]. cbn. split; reflexivity. }
  destruct R as (r & E & V). exists r. split; [exact E|]. split; [exact V|].
  intros r1 t1 E1 V1.
  destruct (validate_single_verdict cert t) as (r1' & E1' & V1' & _).
  rewrite E1' in E1. injection E1 as -> _.
  apply V. now apply V1'.
Qed.

Lemma link_confirmations_length (n : nat) :
  forall i, length (link_confirmations i n) = n.
Proof. induction n as [|n IH]; intros i; simpl; [reflexivity | now rewrite IH]. Qed.

Lemma structural_messages_length (certs : list Certificate) :
  forall i,
    2 * length certs <= length (structural_messages i certs) <= 3 * length certs.
Proof.
  induction certs as [|c certs IH]; intros i; [simpl; lia|].
  cbn [structural_messages]. rewrite length_app. specialize (IH (S i)).
  assert (B : 2 <= length (structural_messages_of i c) <= 3).
  { unfold structural_messages_of, tagged. rewrite length_app, !length_map.
    unfold check_basic_constraints, check_key_usage.
    destruct (basic_constraints c) as [bc|]; destruct (key_usage c) as [ku|];
      try destruct (ca bc); try destruct (path_length bc);
      try destruct (key_cert_sign ku); simpl; lia. }
  cbn [length]. lia.
Qed.

(** The trail of an accepted chain of [n] certificates has between
    [3 n - 1] and [4 n] messages. *)
Theorem valid_trail_length (truststore cert_chain : list Certificate)
    (use_truststore : bool) (t t' : list event) (r : ValidationResult) :
  validate_chain truststore cert_chain use_truststore t = (Py.Return r, t') ->
  is_valid r = true ->
  3 * length cert_chain - 1 <= length (messages r) <= 4 * length cert_chain.
Proof.
  intros E V.
  destruct cert_chain as [|first rest] eqn:EC.
  - injection E as <- _. discriminate V.
  - rewrite <- EC in *.
    assert (NE : cert_chain <> []) by (rewrite EC; discriminate).
    destruct (validate_chain_outcome truststore cert_chain first use_truststore t)
      as (r0 & lp & tp & later & E0 & V0 & _).
    rewrite E0 in E. injection E as -> _. rewrite V in V0. symmetry in V0.
    apply (chain_accepted_iff _ _ first) in V0 as (_ & F & L & _).
    rewrite (validate_chain_structured truststore _ first use_truststore _ t NE
               (structural_loop_ok _ 0 [] F)) in E0.
    rewrite (linkage_loop_ok _ 0 _ t L) in E0.
    pose proof (structural_messages_length cert_chain 0) as SL.
    pose proof (link_confirmations_length (pred (length cert_chain)) 0) as CL.
    assert (P : 1 <= length cert_chain) by (rewrite EC; simpl; lia).
    destruct (use_truststore && negb (Nat.eqb (length truststore) 0)).
    + destruct (existsb (anchors (last cert_chain first)) truststore);
        injection E0 as <- _; [|discriminate V].
      cbn [messages app]. rewrite !length_app, CL. cbn [length]. lia.
    + injection E0 as <- _. cbn [messages app]. rewrite !length_app, CL. lia.
Qed.

Lemma key_cert_sign_listed (cert : Certificate) :
  In "key_cert_sign" (CertificateParser.get_key_usage cert) <->
  exists ku, key_usage cert = Some ku /\ key_cert_sign ku = true.
Proof.
  unfold CertificateParser.get_key_usage.
  destruct (key_usage cert) as [[ds ke kcs crl]|].
  - destruct ds, ke, kcs, crl; cbn; split; intros X;
      first
        [ solve [eexists; split; reflexivity]
        | solve [repeat (destruct X as [X|X]; [discriminate X|]); contradiction]
        | solve [destruct X as (ku & [= <-] & K); discriminate K]
        | solve [repeat (first [left; reflexivity | right])] ].
  - cbn. split; [contradiction | intros (ku & E & _); discriminate].
Qed.

(** [check_key_usage] fails exactly for a certificate that [is_ca] calls a
    CA, that has a key usage extension, and for which [get_key_usage] does
    not list [key_cert_sign]; without a key usage extension it only
    warns. *)
Theorem check_key_usage_and_parser (cert : Certificate) :
  (is_valid (check_key_usage cert) = false <->
     CertificateParser.is_ca cert = true /\ key_usage cert <> None /\
     ~ In "key_cert_sign" (CertificateParser.get_key_usage cert)) /\
  (status (check_key_usage cert) = INVALID <->
     is_valid (check_key_usage cert) = false) /\
  (status (check_key_usage cert) = WARNING <-> key_usage cert = None).
Proof.
  rewrite key_cert_sign_listed.
  unfold check_key_usage, CertificateParser.is_ca.
  destruct (key_usage cert) as [ku|]; [destruct (basic_constraints cert) as [bc|]|];
    [destruct (ca bc), (key_cert_sign ku) eqn:K| |]; cbn;
    repeat split; intros; try discriminate; try congruence; try tauto.
  all: try match goal with
           | X : _ /\ _ /\ _ |- _ => destruct X as (A & B & N)
           end; try discriminate; try congruence.
  all: try (exfalso; apply N; exists ku; split; [reflexivity | assumption]).
  intros (ku' & [= <-] & K'). congruence.
Qed.

End WithBackend.

Lemma add_trusted_cert_keeps_valid_witness :
  exists r t',
    validate_chain (H := Samples.toy_backend)
      (add_trusted_cert [Samples.root] Samples.impostor)
      [Samples.leaf; Samples.intermediate; Samples.root] true []
    = (Py.Return r, t') /\
    is_valid r = true.
Proof.
  eexists (Build VALID _ true), _. split; [|reflexivity].
  apply (add_trusted_cert_keeps_valid (H := Samples.toy_backend) [Samples.root]
           [Samples.leaf; Samples.intermediate; Samples.root] Samples.impostor true []);
    [discriminate | cbv; reflexivity | reflexivity].
Defined.

Lemma validate_chain_truststore_order_witness :
  fst (validate_chain (H := Samples.toy_backend) [Samples.impostor; Samples.root]
         [Samples.leaf; Samples.intermediate; Samples.root] true [])
  = fst (validate_chain (H := Samples.toy_backend) [Samples.root; Samples.impostor]
           [Samples.leaf; Samples.intermediate; Samples.root] true []).
Proof.
  apply validate_chain_truststore_order. apply perm_swap.
Defined.

Lemma validate_chain_verdict_witness :
  exists r t',
    validate_chain (H := Samples.toy_backend) []
      [Samples.leaf; Samples.intermediate; Samples.root] true []
    = (Py.Return r, t') /\
    is_valid r = true.
Proof.
  destruct (validate_chain_verdict (H := Samples.toy_backend) []
              [Samples.leaf; Samples.intermediate; Samples.root] Samples.leaf true [])
    as (r & t' & E & V).
  exists r, t'. split; [exact E|]. apply V.
  split; [discriminate|]. split; [repeat constructor|]. split; [reflexivity|].
  right. now left.
Defined.

Lemma validate_chain_tail_witness :
  exists r' t'',
    validate_chain (H := Samples.toy_backend) [Samples.root]
      [Samples.intermediate; Samples.root] true []
    = (Py.Return r', t'') /\
    is_valid r' = true /\ status r' = VALID.
Proof.
  eapply (validate_chain_tail (H := Samples.toy_backend) [Samples.root]
            [Samples.leaf] [Samples.intermediate; Samples.root] true []);
    [discriminate | cbv; reflexivity | reflexivity].
Defined.

Lemma validate_chain_calls_witness :
  exists calls,
    [VerifyCall Samples.leaf Samples.intermediate;
     VerifyCall Samples.intermediate Samples.root;
     VerifyCall Samples.root Samples.impostor] = [] ++ calls /\
    length calls <= 2 + 1 /\
    Forall (expected_call [Samples.impostor]
              [Samples.leaf; Samples.intermediate; Samples.root]) calls.
Proof.
  eapply (validate_chain_calls (H := Samples.toy_backend) [Samples.impostor]
            [Samples.leaf; Samples.intermediate; Samples.root] true []).
  cbv. reflexivity.
Defined.

Lemma single_certificate_chain_witness :
  exists r,
    validate_chain (H := Samples.toy_backend) [] [Samples.impostor] true []
      = (Py.Return r, []) /\
    is_valid r = true.
Proof.
  destruct (single_certificate_chain (H := Samples.toy_backend) [] Samples.impostor
              true [] (or_intror eq_refl))
    as (r & E & V & _).
  exists r. split; [exact E|]. apply V. reflexivity.
Defined.

Lemma valid_trail_length_witness :
  3 * 3 - 1 <= 9 <= 4 * 3.
Proof.
  eapply (valid_trail_length (H := Samples.toy_backend) [Samples.root]
            [Samples.leaf; Samples.intermediate; Samples.root] true [] _
            (Build VALID
               ["Cert 0: Basic constraints extension not found";
                "Cert 0: Key usage extension not found";
                "Cert 1: Certificate is a CA certificate";
                "Cert 1: Key usage valid";
                "Cert 2: Certificate is a CA certificate";
                "Cert 2: Key usage valid";
                "Cert 0: Signature valid";
                "Cert 1: Signature valid";
                "Root certificate found in truststore"] true));
    [cbv; reflexivity | reflexivity].
Defined.

Lemma check_key_usage_and_parser_witness :
  is_valid (check_key_usage Samples.weak_ca) = false.
Proof.
  apply (proj1 (check_key_usage_and_parser Samples.weak_ca)).
  split; [reflexivity|]. split; [discriminate|].
  cbn. intros I. repeat (destruct I as [I|I]; [discriminate I|]). exact I.
Defined.

Lemma validate_single_verdict_witness :
  exists r,
    validate_single (H := Samples.toy_backend) Samples.intermediate []
      = (Py.Return r, []) /\
    is_valid r = true.
Proof.
  destruct (validate_single_verdict (H := Samples.toy_backend) Samples.intermediate [])
    as (r & E & V & _).
  exists r. split; [exact E|]. apply V. split; [reflexivity|]. discriminate.
Defined.

End ValidatorFacts.

(* ================================================================== *)
(** * Properties of the trust store entries *)
(* ================================================================== *)

Module TruststoreFacts.
Import X509 TruststoreManager.

Lemma dict_in_keys (d : entries) (k : string) :
  dict_in d k = true <-> In k (map fst d).
Proof.
  unfold dict_in. induction d as [|[k' v'] d IH]; simpl.
  - split; [discriminate | contradiction].
  - destruct (String.eqb_spec k' k) as [->|NE].
    + split; auto.
    + rewrite IH. split; [auto | intros [E|I]; [congruence | exact I]].
Qed.

Lemma dict_get_set_same (d : entries) (k : string) (v : CertificateEntry) :
  dict_get (dict_set d k v) k = Some v.
Proof.
  induction d as [|[k' v'] d IH]; simpl.
  - now rewrite String.eqb_refl.
  - destruct (String.eqb k' k) eqn:E; simpl; now rewrite E.
Qed.

Lemma dict_get_set_other (d : entries) (k k' : string) (v : CertificateEntry) :
  k' <> k -> dict_get (dict_set d k v) k' = dict_get d k'.
Proof.
  intros NE. induction d as [|[k0 v0] d IH]; simpl.
  - destruct (String.eqb_spec k k'); [congruence | reflexivity].
  - destruct (String.eqb_spec k0 k) as [->|N0]; simpl.
    + destruct (String.eqb_spec k k'); [congruence | reflexivity].
    + now rewrite IH.
Qed.

Lemma dict_get_del_other (d : entries) (k k' : string) :
  k' <> k -> dict_get (dict_del d k) k' = dict_get d k'.
Proof.
  intros NE. induction d as [|[k0 v0] d IH]; simpl; [reflexivity|].
  destruct (String.eqb_spec k0 k) as [->|N0]; simpl.
  - destruct (String.eqb_spec k k'); [congruence | reflexivity].
  - now rewrite IH.
Qed.

Lemma dict_get_none (d : entries) (k : string) :
  ~ In k (map fst d) -> dict_get d k = None.
Proof.
  intros N. destruct (dict_get d k) eqn:E; [|reflexivity].
  exfalso. apply N, dict_in_keys. unfold dict_in. now rewrite E.
Qed.

Lemma dict_get_del_same (d : entries) (k : string) :
  NoDup (map fst d) -> dict_get (dict_del d k) k = None.
Proof.
  induction d as [|[k0 v0] d IH]; simpl; intros ND; [reflexivity|].
  inversion ND as [|? ? NI ND']; subst.
  destruct (String.eqb_spec k0 k) as [->|N0]; simpl.
  - now apply dict_get_none.
  - destruct (String.eqb_spec k0 k); [congruence|]. now apply IH.
Qed.

Lemma keys_set (d : entries) (k : string) (v : CertificateEntry) :
  map fst (dict_set d k v)
  = if dict_in d k then map fst d else map fst d ++ [k].
Proof.
  unfold dict_in. induction d as [|[k0 v0] d IH]; simpl; [reflexivity|].
  destruct (String.eqb_spec k0 k) as [->|N0]; simpl; [reflexivity|].
  rewrite IH. now destruct (dict_get d k).
Qed.

Lemma keys_del_subset (d : entries) (k x : string) :
  In x (map fst (dict_del d k)) -> In x (map fst d).
Proof.
  induction d as [|[k0 v0] d IH]; simpl; [trivial|].
  destruct (String.eqb k0 k); simpl; [auto|]. intros [E|I]; auto.
Qed.

Lemma keys_del_NoDup (d : entries) (k : string) :
  NoDup (map fst d) -> NoDup (map fst (dict_del d k)).
Proof.
  induction d as [|[k0 v0] d IH]; simpl; intros ND; [constructor|].
  inversion ND as [|? ? NI ND']; subst.
  destruct (String.eqb k0 k); simpl; [exact ND'|].
  constructor; [|now apply IH]. intros I. apply NI. now apply keys_del_subset in I.
Qed.

Lemma dict_del_set_fresh (d : entries) (k : string) (v : CertificateEntry) :
  dict_in d k = false -> dict_del (dict_set d k v) k = d.
Proof.
  unfold dict_in. induction d as [|[k0 v0] d IH]; simpl; intros F.
  - now rewrite String.eqb_refl.
  - destruct (String.eqb k0 k) eqn:E; [discriminate F|].
    simpl. rewrite E. now rewrite (IH F).
Qed.

Lemma length_del (d : entries) (k : string) :
  dict_in d k = true -> S (length (dict_del d k)) = length d.
Proof.
  unfold dict_in. induction d as [|[k0 v0] d IH]; simpl; [discriminate|].
  destruct (String.eqb k0 k); simpl; [reflexivity|]. intros I. now rewrite (IH I).
Qed.

(** After a successful [add_certificate] the alias gives back the
    certificate that was added, and every other alias gives what it gave
    before. *)
Theorem add_certificate_then_get (self self' : entries) (cert : Certificate)
    (alias : string) (overwrite b : bool) :
  add_certificate self cert alias overwrite = (Py.Return b, self') ->
  b = true /\
  get_certificate self' alias = Some cert /\
  (forall other, other <> alias ->
     get_certificate self' other = get_certificate self other).
Proof.
  unfold add_certificate, get_certificate.
  destruct (dict_in self alias && negb overwrite); [discriminate|].
  intros [= <- <-]. split; [reflexivity|]. split.
  - now rewrite dict_get_set_same.
  - intros other NE. now rewrite dict_get_set_other.
Qed.

(** An alias that is taken is refused without [overwrite], and the
    entries are left as they were; with [overwrite] the entry is replaced
    where it stands, so the order of the aliases does not change.  A new
    alias goes to the end of the listing. *)
Theorem add_certificate_order (self : entries) (cert : Certificate) (alias : string) :
  (dict_in self alias = true ->
   add_certificate self cert alias false
   = (Py.Raise (Config.ValueError ("Alias '" ++ alias ++ "' already exists")%string),
      self) /\
   exists self',
     add_certificate self cert alias true = (Py.Return true, self') /\
     map fst self' = map fst self /\
     length (list_certificates self') = length (list_certificates self)) /\
  (dict_in self alias = false ->
   forall overwrite,
     add_certificate self cert alias overwrite
     = (Py.Return true, self ++ [(alias, Entry alias cert "trusted_cert")]) /\
     list_certificates (self ++ [(alias, Entry alias cert "trusted_cert")])
     = list_certificates self ++ [Entry alias cert "trusted_cert"]).
Proof.
  unfold add_certificate, list_certificates. split; intros I.
  - rewrite I. cbn [negb andb]. split; [reflexivity|].
    eexists. split; [reflexivity|].
    assert (K := keys_set self alias (Entry alias cert "trusted_cert")).
    rewrite I in K. split; [exact K|].
    rewrite !length_map. rewrite <- (length_map fst), K. now rewrite length_map.
  - intros overwrite. rewrite I. cbn [andb].
    assert (A : dict_set self alias (Entry alias cert "trusted_cert")
                = self ++ [(alias, Entry alias cert "trusted_cert")]).
    { unfold dict_in in I. induction self as [|[k0 v0] d IH]; simpl; [reflexivity|].
      simpl in I. destruct (String.eqb k0 alias); [discriminate I|].
      now rewrite (IH I). }
    rewrite A. split; [reflexivity|]. now rewrite map_app.
Qed.

(** [remove_certificate] answers whether the alias was there; afterwards
    the alias gives nothing, every other alias gives what it gave before,
    and the listing is shorter by one exactly when the answer is true. *)
Theorem remove_certificate_then_get (self self' : entries) (alias : string) (b : bool) :
  NoDup (map fst self) ->
  remove_certificate self alias = (b, self') ->
  b = dict_in self alias /\
  get_certificate self' alias = None /\
  (forall other, other <> alias ->
     get_certificate self' other = get_certificate self other) /\
  length (list_certificates self) =
    length (list_certificates self') + (if b then 1 else 0).
Proof.
  intros ND. unfold remove_certificate, get_certificate, list_certificates.
  destruct (dict_in self alias) eqn:I; intros [= <- <-].
  - split; [reflexivity|]. split; [now rewrite dict_get_del_same|]. split.
    + intros other NE. now rewrite dict_get_del_other.
    + rewrite !length_map, <- (length_del self alias I). lia.
  - split; [reflexivity|]. split.
    + unfold dict_in in I. now destruct (dict_get self alias).
    + split; [reflexivity | lia].
Qed.

(** The entries keep one binding per alias through [add_certificate] and
    [remove_certificate], and removing an alias that was just added as new
    gives back the entries as they were. *)
Theorem entries_stay_unique (self : entries) (cert : Certificate) (alias : string)
    (overwrite : bool) :
  NoDup (map fst self) ->
  NoDup (map fst (snd (add_certificate self cert alias overwrite))) /\
  NoDup (map fst (snd (remove_certificate self alias))) /\
  (dict_in self alias = false ->
   remove_certificate (snd (add_certificate self cert alias overwrite)) alias
   = (true, self)).
Proof.
  intros ND. unfold add_certificate, remove_certificate. repeat split.
  - destruct (dict_in self alias && negb overwrite); [exact ND|].
    cbn [snd]. rewrite keys_set.
    destruct (dict_in self alias) eqn:I; [exact ND|].
    apply NoDup_app; [exact ND | repeat constructor; auto |].
    intros x Ix [<-|[]]. apply dict_in_keys in Ix. congruence.
  - destruct (dict_in self alias); cbn [snd]; [now apply keys_del_NoDup | exact ND].
  - intros I. rewrite I. cbn [andb snd].
    assert (J : dict_in (dict_set self alias (Entry alias cert "trusted_cert")) alias
                = true).
    { unfold dict_in. now rewrite dict_get_set_same. }
    rewrite J. now rewrite dict_del_set_fresh.
Qed.

Lemma add_certificate_then_get_witness :
  get_certificate
    (snd (add_certificate Samples.two_entries Samples.impostor "legacy" true)) "legacy"
    = Some Samples.impostor /\
  get_certificate
    (snd (add_certificate Samples.two_entries Samples.impostor "legacy" true)) "root"
    = Some Samples.root.
Proof.
  destruct (add_certificate_then_get Samples.two_entries
              (snd (add_certificate Samples.two_entries Samples.impostor "legacy" true))
              Samples.impostor "legacy" true true eq_refl)
    as (_ & G & O).
  split; [exact G|]. rewrite (O "root"); [reflexivity | discriminate].
Defined.

Lemma add_certificate_order_witness :
  add_certificate Samples.two_entries Samples.impostor "root" false
  = (Py.Raise (Config.ValueError "Alias 'root' already exists"), Samples.two_entries) /\
  list_certificates
    (Samples.two_entries
       ++ [("evil", Entry "evil" Samples.impostor "trusted_cert")])
  = list_certificates Samples.two_entries
      ++ [Entry "evil" Samples.impostor "trusted_cert"].
Proof.
  split.
  - exact (proj1 (proj1 (add_certificate_order Samples.two_entries Samples.impostor
                           "root") eq_refl)).
  - exact (proj2 (proj2 (add_certificate_order Samples.two_entries Samples.impostor
                           "evil") eq_refl false)).
Defined.

Lemma two_entries_unique : NoDup (map fst Samples.two_entries).
Proof.
  repeat constructor; simpl; intros D;
    repeat (destruct D as [D|D]; [discriminate D|]); exact D.
Defined.

Lemma remove_certificate_then_get_witness :
  get_certificate (snd (remove_certificate Samples.two_entries "root")) "root" = None /\
  get_certificate (snd (remove_certificate Samples.two_entries "root")) "legacy"
    = Some Samples.cross_root.
Proof.
  destruct (remove_certificate_then_get Samples.two_entries
              (snd (remove_certificate Samples.two_entries "root")) "root" true
              two_entries_unique eq_refl)
    as (_ & G & O & _).
  split; [exact G|]. rewrite (O "legacy"); [reflexivity | discriminate].
Defined.

Lemma entries_stay_unique_witness :
  remove_certificate
    (snd (add_certificate Samples.two_entries Samples.impostor "evil" false)) "evil"
  = (true, Samples.two_entries).
Proof.
  apply (proj2 (proj2 (entries_stay_unique Samples.two_entries Samples.impostor
                         "evil" false two_entries_unique))).
  reflexivity.
Defined.

End TruststoreFacts.

(* ================================================================== *)
(** * Properties of [cert_parser.py] *)
(* ================================================================== *)

Module ParserFacts.
Import X509 PyStr PyStrFacts CertificateParser.

Lemma first_attribute (n : Name) (o : string) :
  match get_attributes_for_oid n o with
  | a :: _ =>
      exists before after,
        n = before ++ a :: after /\ oid a = o /\
        Forall (fun b => oid b <> o) before
  | [] => Forall (fun b => oid b <> o) n
  end.
Proof.
  unfold get_attributes_for_oid.
  induction n as [|b n IH]; simpl; [constructor|].
  destruct (String.eqb_spec (oid b) o) as [E|NE].
  - exists [], n. repeat split; [exact E | constructor].
  - destruct (filter (fun a => String.eqb (oid a) o) n) as [|a rest].
    + now constructor.
    + destruct IH as (before & after & -> & E & F).
      exists (b :: before), after. repeat split; [exact E | now constructor].
Qed.

(** [get_subject_cn] gives the value of the first common name of the
    subject, whatever stands before it and however many common names
    follow, and [None] exactly when the subject has no common name. *)
Theorem get_subject_cn_first (cert : Certificate) :
  (forall cn, get_subject_cn cert = Some cn ->
     exists before a after,
       subject cert = before ++ a :: after /\
       oid a = COMMON_NAME /\ value a = cn /\
       Forall (fun b => oid b <> COMMON_NAME) before) /\
  (get_subject_cn cert = None <->
     Forall (fun b => oid b <> COMMON_NAME) (subject cert)).
Proof.
  unfold get_subject_cn.
  pose proof (first_attribute (subject cert) COMMON_NAME) as S.
  destruct (get_attributes_for_oid (subject cert) COMMON_NAME) as [|a rest].
  - split; [discriminate|]. now split.
  - destruct S as (before & after & E & O & F). split.
    + intros cn [= <-]. now exists before, a, after.
    + split; [discriminate|]. intros G. rewrite E in G.
      apply Forall_app in G as [_ G]. inversion G. congruence.
Qed.

Lemma get_subject_cn_first_witness :
  exists before a after,
    subject Samples.two_names = before ++ a :: after /\
    oid a = COMMON_NAME /\ value a = "first.example.com" /\
    Forall (fun b => oid b <> COMMON_NAME) before.
Proof.
  exact (proj1 (get_subject_cn_first Samples.two_names) "first.example.com" eq_refl).
Defined.

End ParserFacts.

(* ================================================================== *)
(** * Properties of the CSV export *)
(* ================================================================== *)

Module DisplayFacts.
Import X509 PyStr PyStrFacts Remote Display.

Lemma split_sep_head (sep : ascii) (r : string) :
  split sep (String sep r) = "" :: split sep r.
Proof. simpl. now rewrite Ascii.eqb_refl. Qed.

Lemma uint_comma_free (d : Decimal.uint) :
  free_of "," (NilEmpty.string_of_uint d) = true.
Proof. induction d; simpl; auto. Qed.

Lemma str_of_Z_comma_free (z : Z) : free_of "," (str_of_Z z) = true.
Proof.
  unfold str_of_Z. destruct (Z.to_int z); simpl; apply uint_comma_free.
Qed.

Lemma status_value_comma_free (s : CertificateStatus) :
  free_of "," (status_value s) = true.
Proof. now destruct s. Qed.

Section WithCalendar.
Context `{Calendar}.

(** The row of a failed check has eight fields where the header has
    nine: after the status come three empty fields and then the error
    text, which so stands under "Days Remaining" and not under "Error".
    (Host name, FQDN and error text are taken to hold no comma; the export
    does not quote them.) *)
Theorem csv_error_row (result : HostCheckResult.t) (e : string) :
  HostCheckResult.error result = Some e ->
  e <> "" ->
  free_of "," (HostCheckResult.host_name result) = true ->
  free_of "," (HostCheckResult.fqdn result) = true ->
  free_of "," e = true ->
  exists row,
    csv_rows result = [row] /\
    split "," row
    = [HostCheckResult.host_name result; HostCheckResult.fqdn result;
       str_of_Z (HostCheckResult.port result);
       status_value (HostCheckResult.status result); ""; ""; ""; e] /\
    length (split "," row) = 8%nat /\
    length (split "," csv_header) = 9%nat /\
    nth_error (split "," csv_header) 7 = Some "Days Remaining" /\
    nth_error (split "," row) 7 = Some e.
Proof.
  intros E NE Fh Ff Fe. unfold csv_rows. rewrite E.
  destruct e as [|c e]; [congruence|]. cbn [truthy Py.or_str].
  eexists. split; [reflexivity|].
  assert (S : split ","
                (HostCheckResult.host_name result ++ "," ++ HostCheckResult.fqdn result
                   ++ "," ++ str_of_Z (HostCheckResult.port result) ++ ","
                   ++ status_value (HostCheckResult.status result) ++ ",,,,"
                   ++ String c e)%string
              = [HostCheckResult.host_name result; HostCheckResult.fqdn result;
                 str_of_Z (HostCheckResult.port result);
                 status_value (HostCheckResult.status result); ""; ""; ""; String c e]).
  { cbn [append].
    rewrite (split_app "," _ _ Fh), (split_app "," _ _ Ff).
    rewrite (split_app "," _ _ (str_of_Z_comma_free _)).
    rewrite (split_app "," _ _ (status_value_comma_free _)).
    rewrite !split_sep_head.
    now rewrite (ConfigFacts.split_free_single "," _ Fe). }
  rewrite S. repeat split.
Qed.

(** The row of a result with a certificate has the nine fields of the
    header, the last one empty.  (The names are taken to hold no comma.) *)
Theorem csv_certificate_row (result : HostCheckResult.t) (cert : Certificate)
    (expiration : ExpirationInfo.t) :
  HostCheckResult.error result = None ->
  HostCheckResult.certificate result = Some cert ->
  HostCheckResult.expiration result = Some expiration ->
  free_of "," (HostCheckResult.host_name result) = true ->
  free_of "," (HostCheckResult.fqdn result) = true ->
  free_of "," (Py.or_str (CertificateParser.get_subject_cn cert) "") = true ->
  free_of "," (Py.or_str (CertificateParser.get_issuer_cn cert) "") = true ->
  free_of "," (strftime_ymd (ExpirationInfo.not_after expiration)) = true ->
  exists row,
    csv_rows result = [row] /\
    split "," row
    = [HostCheckResult.host_name result; HostCheckResult.fqdn result;
       str_of_Z (HostCheckResult.port result);
       status_value (HostCheckResult.status result);
       Py.or_str (CertificateParser.get_subject_cn cert) "";
       Py.or_str (CertificateParser.get_issuer_cn cert) "";
       strftime_ymd (ExpirationInfo.not_after expiration);
       str_of_Z (ExpirationInfo.days_remaining expiration); ""] /\
    length (split "," row) = length (split "," csv_header).
Proof.
  intros E C X Fh Ff Fs Fi Fd. unfold csv_rows. rewrite E, C, X.
  eexists. split; [reflexivity|].
  cbn [append].
  rewrite (split_app "," _ _ Fh), (split_app "," _ _ Ff).
  rewrite (split_app "," _ _ (str_of_Z_comma_free _)).
  rewrite (split_app "," _ _ (status_value_comma_free _)).
  rewrite (split_app "," _ _ Fs), (split_app "," _ _ Fi), (split_app "," _ _ Fd).
  rewrite (split_app "," _ _ (str_of_Z_comma_free _)).
  split; reflexivity.
Qed.

Lemma export_csv_lines_flat (results : list HostCheckResult.t) :
  export_csv_lines results = csv_header :: flat_map csv_rows results.
Proof.
  unfold export_csv_lines.
  assert (G : forall lines,
             fold_left (fun lines result => lines ++ csv_rows result) results lines
             = lines ++ flat_map csv_rows results).
  { induction results as [|r results IH]; intros lines; simpl.
    - now rewrite app_nil_r.
    - now rewrite IH, <- app_assoc. }
  now rewrite G.
Qed.

(** The export starts with the header and goes through the results in
    order; every result that [check_host] returns gives exactly one row,
    while a result with neither an error text nor a certificate gives
    none. *)
Theorem export_csv_rows `{Network} (results : list HostCheckResult.t)
    (now self_timeout : Z) (fqdn : string) (port warning_days : Z)
    (host_name : option string) (timeout : option Z) (r : HostCheckResult.t) :
  export_csv_lines results = csv_header :: flat_map csv_rows results /\
  (check_host now self_timeout fqdn port warning_days host_name timeout = Py.Return r ->
   length (csv_rows r) = 1%nat) /\
  (HostCheckResult.error r = None -> HostCheckResult.certificate r = None ->
   csv_rows r = []).
Proof.
  split; [apply export_csv_lines_flat|]. split.
  - intros E.
    destruct (RemoteFacts.check_host_cases now self_timeout fqdn port warning_days
                host_name timeout)
      as [(msg & E')|(cert & G & E')]; rewrite E' in E; injection E as <-.
    + unfold check_host in E'.
      destruct (get_certificate_chain self_timeout fqdn port timeout)
        as [[|c chain]|[m|m|m|m|m|m|m]];
        cbn [Py.rbind Py.rtry] in E'; try discriminate E';
        injection E' as <-; reflexivity.
    + reflexivity.
  - intros E C. unfold csv_rows. now rewrite E, C.
Qed.

End WithCalendar.

Lemma csv_error_row_witness :
  exists row,
    csv_rows (H := Samples.fixed_calendar)
      (error_result "down" "nowhere.invalid" 443 "DNS resolution failed: no such host")
    = [row] /\
    split "," row
    = ["down"; "nowhere.invalid"; "443"; "error"; ""; ""; "";
       "DNS resolution failed: no such host"].
Proof.
  destruct (csv_error_row (H := Samples.fixed_calendar)
              (error_result "down" "nowhere.invalid" 443
                 "DNS resolution failed: no such host")
              "DNS resolution failed: no such host"
              eq_refl ltac:(discriminate) eq_refl eq_refl eq_refl)
    as (row & R & S & _).
  exists row. split; [exact R | exact S].
Defined.

Lemma csv_certificate_row_witness :
  exists row,
    csv_rows (H := Samples.fixed_calendar)
      (HostCheckResult.make "api" "api.example.com" 443 VALID
         (Some Samples.leaf) (Some [Samples.leaf])
         (Some (check_expiration 0 Samples.leaf 30)) (Some true) None)
    = [row] /\
    split "," row
    = ["api"; "api.example.com"; "443"; "valid"; "api.example.com";
       "Intermediate CA"; "2033-05-18"; "23148"; ""].
Proof.
  destruct (csv_certificate_row (H := Samples.fixed_calendar)
              (HostCheckResult.make "api" "api.example.com" 443 VALID
                 (Some Samples.leaf) (Some [Samples.leaf])
                 (Some (check_expiration 0 Samples.leaf 30)) (Some true) None)
              Samples.leaf (check_expiration 0 Samples.leaf 30)
              eq_refl eq_refl eq_refl eq_refl eq_refl eq_refl eq_refl eq_refl)
    as (row & R & S & _).
  exists row. split; [exact R | exact S].
Defined.

Lemma export_csv_rows_witness :
  exists r,
    check_host (H := Samples.no_dns) 0 10 "nowhere.invalid" 443 30 None None
      = Py.Return r /\
    length (csv_rows (H := Samples.fixed_calendar) r) = 1%nat.
Proof.
  eexists. split; [reflexivity|].
  apply (proj1 (proj2 (export_csv_rows (H := Samples.fixed_calendar)
                         (H0 := Samples.no_dns) [] 0 10 "nowhere.invalid" 443 30
                         None None _))).
  reflexivity.
Defined.

End DisplayFacts.
